(** * Coffee order builder (src/main.py): model and verified properties

    The Python program is embedded shallowly:
    - [str] values are [string]s holding the UTF-8 bytes of the text
      (byte-wise lexicographic order on UTF-8 is code-point order, which is
      the order Python's [sorted] uses on [str]);
    - numbers are [pynum]: a Python [int] (as [Z]) or a Python [float]
      (IEEE binary64, as [spec_float] with precision 53 and emax 1024);
    - the builder's [set] of syrups is a [gset string], the price tables are
      [gmap]s;
    - methods are computations in a state-and-exception monad over the
      builder's fields, so that what a failing call leaves behind is part of
      the model.

    Two functions of the Python runtime are not defined by the program and
    are taken as parameters: [str_lower] (Unicode [str.lower]) and
    [float_repr] (the text of a float inside an f-string). *)

From Stdlib Require Import ZArith QArith Qabs String List SpecFloat Lia.
From stdpp Require Import gmap strings sorting pretty.

Local Open Scope Z_scope.

(** ** Python numbers *)

Module Float64.

Definition prec : Z := 53.
Definition emax : Z := 1024.

Definition add : spec_float -> spec_float -> spec_float := SFadd prec emax.
Definition mul : spec_float -> spec_float -> spec_float := SFmul prec emax.
Definition compare : spec_float -> spec_float -> option comparison := SFcompare.
Definition succ : spec_float -> spec_float := SFsucc prec emax.
Definition pred : spec_float -> spec_float := SFpred prec emax.

(** [float(z)] for an int: the nearest double, exact below 2^53. *)
Definition of_int (z : Z) : spec_float := binary_normalize prec emax z 0 false.

(** The double nearest to [n / d] (ties to even), for [d > 0]; the sign of
    a zero result is [neg]. This is what a decimal literal denotes and
    what converting a decimal text back to a float yields. *)
Definition of_ratio (neg : bool) (n d : Z) : spec_float :=
  if n =? 0 then S754_zero neg
  else
    let '(q, e, l) := SFdiv_core_binary prec emax n 0 d 0 in
    binary_round_aux prec emax neg q e l.

(** The literals of the program: [0.0], [1.0], [1.2], [1.4], [0.2]. *)
Definition lit_0_0 : spec_float := S754_zero false.
Definition lit_1_0 : spec_float := of_ratio false 10 10.
Definition lit_1_2 : spec_float := of_ratio false 12 10.
Definition lit_1_4 : spec_float := of_ratio false 14 10.
Definition lit_0_2 : spec_float := of_ratio false 2 10.
Definition nan : spec_float := S754_nan.

(** Nearest integer to [n / d], ties to even, for [0 <= n] and [0 < d]. *)
Definition div_half_even (n d : Z) : Z :=
  let q := n / d in
  match (2 * (n mod d)) ?= d with
  | Lt => q
  | Gt => q + 1
  | Eq => if Z.even q then q else q + 1
  end.

(** [round(x, 2)] on a float, as CPython computes it: the exact value of
    [x] is rounded half-to-even to two decimals, and the resulting decimal
    is converted back to the nearest double. Infinities and NaN are
    returned as they are. *)
Definition round2 (x : spec_float) : spec_float :=
  match x with
  | S754_finite s m e =>
      let hundredths :=
        match e with
        | Zneg p => div_half_even (Zpos m * 100) (2 ^ Zpos p)
        | _ => Zpos m * 100 * 2 ^ e
        end in
      of_ratio s hundredths 100
  | _ => x
  end.

(** Exact comparison of an int with a float ([None] against NaN). *)
Definition compare_int (z : Z) (f : spec_float) : option comparison :=
  match f with
  | S754_nan => None
  | S754_infinity s => Some (if s then Gt else Lt)
  | S754_zero _ => Some (z ?= 0)
  | S754_finite s m e =>
      let v := cond_Zopp s (Zpos m) in
      Some match e with
           | Zneg p => (z * 2 ^ Zpos p) ?= v
           | _ => z ?= v * 2 ^ e
           end
  end.

(** The exact value of a finite float, as a rational. *)
Definition to_Q (f : spec_float) : option Q :=
  match f with
  | S754_zero _ => Some 0%Q
  | S754_finite s m e =>
      Some match e with
           | Zneg p => Qmake (cond_Zopp s (Zpos m)) (2 ^ p)
           | _ => inject_Z (cond_Zopp s (Zpos m) * 2 ^ e)
           end
  | _ => None
  end.

(** [nearest q f]: [f] is a valid finite double and no neighbouring double
    is closer to the rational [q] than [f] is. *)
Definition nearest (q : Q) (f : spec_float) : bool :=
  valid_binary prec emax f &&
  match to_Q f, to_Q (pred f), to_Q (succ f) with
  | Some v, Some lo, Some hi =>
      Qle_bool (Qabs (v - q)) (Qabs (lo - q)) &&
      Qle_bool (Qabs (v - q)) (Qabs (hi - q))
  | _, _, _ => false
  end.

End Float64.

Variant pynum : Type :=
  | PyInt (z : Z)
  | PyFloat (f : spec_float).

Module PyNum.

(** Mixed arithmetic converts the int operand to a float. *)
Definition to_float (x : pynum) : spec_float :=
  match x with PyInt z => Float64.of_int z | PyFloat f => f end.

Definition add (x y : pynum) : pynum :=
  match x, y with
  | PyInt a, PyInt b => PyInt (a + b)
  | _, _ => PyFloat (Float64.add (to_float x) (to_float y))
  end.

Definition mul (x y : pynum) : pynum :=
  match x, y with
  | PyInt a, PyInt b => PyInt (a * b)
  | _, _ => PyFloat (Float64.mul (to_float x) (to_float y))
  end.

(** [round(x, 2)]: an int is returned unchanged. *)
Definition round2 (x : pynum) : pynum :=
  match x with
  | PyInt z => PyInt z
  | PyFloat f => PyFloat (Float64.round2 f)
  end.

(** Comparisons are exact across int and float; every comparison with NaN
    is false. *)
Definition compare (x y : pynum) : option comparison :=
  match x, y with
  | PyInt a, PyInt b => Some (a ?= b)
  | PyFloat a, PyFloat b => Float64.compare a b
  | PyInt a, PyFloat b => Float64.compare_int a b
  | PyFloat a, PyInt b => CompOpp <$> Float64.compare_int b a
  end.

Definition eqb (x y : pynum) : bool :=
  match compare x y with Some Eq => true | _ => false end.
Definition ltb (x y : pynum) : bool :=
  match compare x y with Some Lt => true | _ => false end.
Definition leb (x y : pynum) : bool :=
  match compare x y with Some Lt | Some Eq => true | _ => false end.
Definition gtb (x y : pynum) : bool := ltb y x.
Definition geb (x y : pynum) : bool := leb y x.

Definition is_nan (x : pynum) : bool :=
  match x with PyFloat S754_nan => true | _ => false end.

End PyNum.

(** ** Exceptions and outcomes *)

(** The program raises [ValueError] itself; [KeyError] is what indexing a
    price table with an unknown key raises (the key is [None] for Python's
    [None]). *)
Variant exn : Type :=
  | ValueError (msg : string)
  | KeyError (key : option string).

Variant outcome (A : Type) : Type :=
  | Returned (a : A)
  | Raised (e : exn).
Arguments Returned {A} a.
Arguments Raised {A} e.

(** A method returning [self] returns this reference to the one builder. *)
Variant self_ref : Type := Self.

(** ** Python values used by both classes *)

(** Truthiness of an [Optional[str]]: [None] and the empty text are falsy.
    [truthy o] is the text when [o] is truthy. *)
Definition truthy (o : option string) : option string :=
  match o with
  | Some s => if String.eqb s "" then None else Some s
  | None => None
  end.

(** [sep.join(parts)]. *)
Definition join (sep : string) (parts : list string) : string :=
  String.concat sep parts.

(** [sorted(xs)] on texts. *)
Definition sorted (xs : list string) : list string := merge_sort String.le xs.

(** [repr] of a list of plain texts, as an f-string shows it. *)
Definition repr_list (xs : list string) : string :=
  "[" +:+ join ", " (map (fun s => "'" +:+ s +:+ "'") xs) +:+ "]".

(** ** The enumerations *)

Variant CoffeeBase : Type := ESPRESSO | AMERICANO | LATTE | CAPPUCCINO.
Variant CoffeeSize : Type := SMALL | MEDIUM | LARGE.
Variant MilkType : Type := NONE | WHOLE | SKIM | OAT | SOY.

Module Enum.

Definition base_value (b : CoffeeBase) : string :=
  match b with
  | ESPRESSO => "espresso"
  | AMERICANO => "americano"
  | LATTE => "latte"
  | CAPPUCCINO => "cappuccino"
  end.

Definition size_value (s : CoffeeSize) : string :=
  match s with
  | SMALL => "small"
  | MEDIUM => "medium"
  | LARGE => "large"
  end.

Definition milk_value (m : MilkType) : string :=
  match m with
  | NONE => "none"
  | WHOLE => "whole"
  | SKIM => "skim"
  | OAT => "oat"
  | SOY => "soy"
  end.

(** [[b.value for b in CoffeeBase]] and its siblings. *)
Definition base_values : list string :=
  map base_value [ESPRESSO; AMERICANO; LATTE; CAPPUCCINO].
Definition size_values : list string :=
  map size_value [SMALL; MEDIUM; LARGE].
Definition milk_values : list string :=
  map milk_value [NONE; WHOLE; SKIM; OAT; SOY].

(** [x in xs] on a list of texts. *)
Definition contains (xs : list string) (x : string) : bool :=
  existsb (String.eqb x) xs.

End Enum.

(** ** class CoffeeOrder *)

Module CoffeeOrder.

Record t : Type := mk {
  base : string;
  size : string;
  milk : string;
  syrups : list string;
  sugar : pynum;
  iced : bool;
  price : pynum;
  description : string
}.

Section Str.
Variable float_repr : spec_float -> string.

(** The text of a number inside an f-string. *)
Definition num_str (x : pynum) : string :=
  match x with
  | PyInt z => pretty z
  | PyFloat f => float_repr f
  end.

Definition __str__ (self : t) : string :=
  if negb (String.eqb (description self) "") then description self
  else size self +:+ " " +:+ base self +:+ " - " +:+ num_str (price self) +:+ "₽".
End Str.

End CoffeeOrder.

(** ** class CoffeeOrderBuilder *)

Module CoffeeOrderBuilder.

(** The instance attributes. *)
Record state : Type := mk {
  _base : option string;
  _size : option string;
  _milk : string;
  _syrups : gset string;
  _sugar : pynum;
  _iced : bool
}.

(** A method body: it runs on the attributes, returns or raises, and
    leaves the attributes as they are at that point. *)
Definition M (A : Type) : Type := state -> outcome A * state.

Definition ret {A : Type} (a : A) : M A := fun st => (Returned a, st).
Definition raise {A : Type} (e : exn) : M A := fun st => (Raised e, st).
Definition bind {A B : Type} (m : M A) (k : A -> M B) : M B :=
  fun st =>
    match m st with
    | (Returned a, st') => k a st'
    | (Raised e, st') => (Raised e, st')
    end.
Definition gets {A : Type} (field : state -> A) : M A :=
  fun st => (Returned (field st), st).

Notation "'let!' x ':=' c 'in' k" := (bind c (fun x => k))
  (at level 10, x name, c at level 100, k at level 200, only parsing).

(** [self._field = v]. *)
Definition assign_base (v : option string) : M unit :=
  fun st => (Returned tt, mk v (_size st) (_milk st) (_syrups st) (_sugar st) (_iced st)).
Definition assign_size (v : option string) : M unit :=
  fun st => (Returned tt, mk (_base st) v (_milk st) (_syrups st) (_sugar st) (_iced st)).
Definition assign_milk (v : string) : M unit :=
  fun st => (Returned tt, mk (_base st) (_size st) v (_syrups st) (_sugar st) (_iced st)).
Definition assign_syrups (v : gset string) : M unit :=
  fun st => (Returned tt, mk (_base st) (_size st) (_milk st) v (_sugar st) (_iced st)).
Definition assign_sugar (v : pynum) : M unit :=
  fun st => (Returned tt, mk (_base st) (_size st) (_milk st) (_syrups st) v (_iced st)).
Definition assign_iced (v : bool) : M unit :=
  fun st => (Returned tt, mk (_base st) (_size st) (_milk st) (_syrups st) (_sugar st) v).

(** [len(s)] on a set. *)
Definition len (s : gset string) : Z := Z.of_nat (size s).

(** [table[key]]. *)
Definition getitem (table : gmap string pynum) (key : option string) : M pynum :=
  match key with
  | Some k =>
      match table !! k with
      | Some v => ret v
      | None => raise (KeyError (Some k))
      end
  | None => raise (KeyError None)
  end.

(** *** Class constants *)

Definition BASE_PRICES : gmap string pynum :=
  list_to_map [("espresso", PyInt 200); ("americano", PyInt 250);
               ("latte", PyInt 300); ("cappuccino", PyInt 320)].

Definition SIZE_MULTIPLIERS : gmap string pynum :=
  list_to_map [("small", PyFloat Float64.lit_1_0);
               ("medium", PyFloat Float64.lit_1_2);
               ("large", PyFloat Float64.lit_1_4)].

Definition MILK_PRICES : gmap string pynum :=
  list_to_map [("none", PyInt 0); ("whole", PyInt 30); ("skim", PyInt 30);
               ("oat", PyInt 60); ("soy", PyInt 50)].

Definition SYRUP_PRICE : Z := 40.
Definition ICED_PRICE : pynum := PyFloat Float64.lit_0_2.
Definition MAX_SUGAR : Z := 5.
Definition MAX_SYRUPS : Z := 4.

(** The messages of the exceptions the class raises. *)
Definition msg_bad_base (base : string) : string :=
  "Недопустимая основа: " +:+ base +:+ ". Допустимо: " +:+ repr_list Enum.base_values.
Definition msg_bad_size (size : string) : string :=
  "Недопустимый размер: " +:+ size +:+ ". Допустимо: " +:+ repr_list Enum.size_values.
Definition msg_bad_milk (milk : string) : string :=
  "Недопустимый тип молока: " +:+ milk +:+ ". Допустимо: " +:+ repr_list Enum.milk_values.
Definition msg_too_many_syrups : string :=
  "Нельзя добавить больше " +:+ pretty MAX_SYRUPS +:+ " сиропов".
Definition msg_bad_sugar : string :=
  "Сахар должен быть от 0 до " +:+ pretty MAX_SUGAR +:+ " чайных ложек".
Definition msg_no_base : string := "Не указана основа кофе (base)".
Definition msg_no_size : string := "Не указан размер кофе (size)".
Definition msg_sugar_limit : string :=
  "Сахар не может превышать " +:+ pretty MAX_SUGAR +:+ " ложек".
Definition msg_syrup_limit : string :=
  "Количество сиропов не может превышать " +:+ pretty MAX_SYRUPS.

(** *** The mutators *)

Definition reset : M self_ref :=
  let! _ := assign_base None in
  let! _ := assign_size None in
  let! _ := assign_milk "none" in
  let! _ := assign_syrups ∅ in
  let! _ := assign_sugar (PyInt 0) in
  let! _ := assign_iced false in
  ret Self.

Definition set_base (base : string) : M self_ref :=
  if negb (Enum.contains Enum.base_values base)
  then raise (ValueError (msg_bad_base base))
  else
    let! _ := assign_base (Some base) in
    ret Self.

Definition set_size (size : string) : M self_ref :=
  if negb (Enum.contains Enum.size_values size)
  then raise (ValueError (msg_bad_size size))
  else
    let! _ := assign_size (Some size) in
    ret Self.

Definition set_milk (milk : string) : M self_ref :=
  if negb (Enum.contains Enum.milk_values milk)
  then raise (ValueError (msg_bad_milk milk))
  else
    let! _ := assign_milk milk in
    ret Self.

Definition set_sugar (teaspoons : pynum) : M self_ref :=
  if negb (PyNum.leb (PyInt 0) teaspoons && PyNum.leb teaspoons (PyInt MAX_SUGAR))
  then raise (ValueError msg_bad_sugar)
  else
    let! _ := assign_sugar teaspoons in
    ret Self.

(** [iced] is [None] when the caller leaves the argument out. *)
Definition set_iced (iced : option bool) : M self_ref :=
  let iced := default true iced in
  let! _ := assign_iced iced in
  ret Self.

Definition clear_extras : M self_ref :=
  let! _ := assign_milk "none" in
  let! _ := assign_syrups ∅ in
  let! _ := assign_sugar (PyInt 0) in
  let! _ := assign_iced false in
  ret Self.

(** *** Price *)

Definition _calculate_price : M pynum :=
  let! base := gets _base in
  let! size := gets _size in
  match truthy base, truthy size with
  | Some _, Some _ =>
      let! base := gets _base in
      let! price := getitem BASE_PRICES base in
      let! size := gets _size in
      let! multiplier := getitem SIZE_MULTIPLIERS size in
      let price := PyNum.mul price multiplier in
      let! milk := gets _milk in
      let! milk_price := getitem MILK_PRICES (Some milk) in
      let price := PyNum.add price milk_price in
      let! syrups := gets _syrups in
      let price := PyNum.add price (PyNum.mul (PyInt (len syrups)) (PyInt SYRUP_PRICE)) in
      let! iced := gets _iced in
      let price := if iced then PyNum.add price ICED_PRICE else price in
      ret (PyNum.round2 price)
  | _, _ => ret (PyFloat Float64.lit_0_0)
  end.

Section Runtime.
Variable str_lower : string -> string.
Variable float_repr : spec_float -> string.

Definition add_syrup (name : string) : M self_ref :=
  let! syrups := gets _syrups in
  if len syrups >=? MAX_SYRUPS
  then raise (ValueError msg_too_many_syrups)
  else
    let! syrups := gets _syrups in
    let! _ := assign_syrups ({[str_lower name]} ∪ syrups) in
    ret Self.

(** *** Description *)

Definition milk_names : gmap string string :=
  list_to_map [("whole", "цельное"); ("skim", "обезжиренное");
               ("oat", "овсяное"); ("soy", "соевое")].

Definition _generate_description : M string :=
  let! base := gets _base in
  let! size := gets _size in
  match truthy base, truthy size with
  | Some base, Some size =>
      let parts := [size; base] in
      let! milk := gets _milk in
      let parts :=
        if negb (String.eqb milk "none")
        then parts ++ ["с " +:+ default milk (milk_names !! milk) +:+ " молоком"]
        else parts in
      let! syrups := gets _syrups in
      let parts :=
        if negb (len syrups =? 0)
        then
          let syrup_list := join ", " (sorted (elements syrups)) in
          parts ++ ["+ сиропы: " +:+ syrup_list]
        else parts in
      let! iced := gets _iced in
      let parts := if iced then parts ++ ["(со льдом)"] else parts in
      let! sugar := gets _sugar in
      let parts :=
        if PyNum.gtb sugar (PyInt 0)
        then
          let sugar_word :=
            if PyNum.eqb sugar (PyInt 1) then "ложка"
            else if PyNum.leb (PyInt 2) sugar && PyNum.leb sugar (PyInt 4) then "ложки"
            else "ложек" in
          parts ++ [CoffeeOrder.num_str float_repr sugar +:+ " " +:+ sugar_word +:+ " сахара"]
        else parts in
      ret (join " " parts)
  | _, _ => ret ""
  end.

(** *** build *)

Definition build : M CoffeeOrder.t :=
  let! base := gets _base in
  match truthy base with
  | None => raise (ValueError msg_no_base)
  | Some _ =>
  let! size := gets _size in
  match truthy size with
  | None => raise (ValueError msg_no_size)
  | Some _ =>
  let! sugar := gets _sugar in
  if PyNum.gtb sugar (PyInt MAX_SUGAR)
  then raise (ValueError msg_sugar_limit)
  else
  let! syrups := gets _syrups in
  if len syrups >? MAX_SYRUPS
  then raise (ValueError msg_syrup_limit)
  else
    let! base := gets _base in
    let! size := gets _size in
    let! milk := gets _milk in
    let! syrups := gets _syrups in
    let! sugar := gets _sugar in
    let! iced := gets _iced in
    let! price := _calculate_price in
    let! description := _generate_description in
    (* [base] and [size] are texts here: both guards above passed *)
    ret (CoffeeOrder.mk (default "" base) (default "" size) milk
           (sorted (elements syrups)) sugar iced price description)
  end
  end.

(** *** Text of the builder *)

(** [try: body except ValueError: handler]; any other exception passes. *)
Definition try_except_ValueError {A : Type} (body handler : M A) : M A :=
  fun st =>
    match body st with
    | (Raised (ValueError _), st') => handler st'
    | (Raised (KeyError k), st') => (Raised (KeyError k), st')
    | (Returned a, st') => (Returned a, st')
    end.

Definition __str__ : M string :=
  let! base := gets _base in
  let! size := gets _size in
  match truthy base, truthy size with
  | Some _, Some _ =>
      try_except_ValueError
        (let! order := build in
         ret ("CoffeeOrderBuilder -> " +:+ CoffeeOrder.description order))
        (ret "CoffeeOrderBuilder (невалидное состояние)")
  | _, _ => ret "CoffeeOrderBuilder (не заполнен)"
  end.

(** *** The public interface as calls *)

(** [__init__] runs [reset] on the new object. *)
Definition __init__ : M unit :=
  let! _ := reset in
  ret tt.

Variant call : Type :=
  | SetBase (base : string)
  | SetSize (size : string)
  | SetMilk (milk : string)
  | AddSyrup (name : string)
  | SetSugar (teaspoons : pynum)
  | SetIced (iced : option bool)
  | ClearExtras
  | Reset
  | Build.

(** The attributes after a call, whether it returned or raised. *)
Definition after (c : call) (st : state) : state :=
  match c with
  | SetBase base => snd (set_base base st)
  | SetSize size => snd (set_size size st)
  | SetMilk milk => snd (set_milk milk st)
  | AddSyrup name => snd (add_syrup name st)
  | SetSugar teaspoons => snd (set_sugar teaspoons st)
  | SetIced iced => snd (set_iced iced st)
  | ClearExtras => snd (clear_extras st)
  | Reset => snd (reset st)
  | Build => snd (build st)
  end.

(** The builders a caller can hold: a new one, and whatever any sequence
    of calls makes of it (in particular the sequences in which every
    call returns). *)
Inductive reachable : state -> Prop :=
  | reachable_new st0 : reachable (snd (__init__ st0))
  | reachable_call c st : reachable st -> reachable (after c st).

(** What the setters guarantee about the attributes. *)
Definition valid_opt (values : list string) (o : option string) : bool :=
  match o with
  | None => true
  | Some s => Enum.contains values s
  end.

Definition invariant (st : state) : bool :=
  valid_opt Enum.base_values (_base st)
  && valid_opt Enum.size_values (_size st)
  && Enum.contains Enum.milk_values (_milk st)
  && (len (_syrups st) <=? MAX_SYRUPS)
  && PyNum.leb (PyInt 0) (_sugar st)
  && PyNum.leb (_sugar st) (PyInt MAX_SUGAR).

End Runtime.

End CoffeeOrderBuilder.

(** ** The specification's wording, for comparison with the code *)

Module Spec.

Definition basePrice (b : CoffeeBase) : Q :=
  match b with
  | ESPRESSO => 200
  | AMERICANO => 250
  | LATTE => 300
  | CAPPUCCINO => 320
  end.

Definition sizeMultiplier (s : CoffeeSize) : Q :=
  match s with
  | SMALL => 1
  | MEDIUM => 12 # 10
  | LARGE => 14 # 10
  end.

Definition milkPrice (m : MilkType) : Q :=
  match m with
  | NONE => 0
  | WHOLE => 30
  | SKIM => 30
  | OAT => 60
  | SOY => 50
  end.

(** A non-negative rational rounded to two decimal places. *)
Definition round2 (q : Q) : Q :=
  let h := (q * 100)%Q in
  Qmake (Float64.div_half_even (Qnum h) (Zpos (Qden h))) 100.

(** basePrice[base] × sizeMultiplier[size] + milkPrice[milk]
    + syrupCount × 40 + (0.2 if iced else 0), rounded to 2 decimals. *)
Definition price (b : CoffeeBase) (s : CoffeeSize) (m : MilkType)
    (syrupCount : Z) (iced : bool) : Q :=
  round2 (basePrice b * sizeMultiplier s + milkPrice m
          + inject_Z syrupCount * 40 + (if iced then 2 # 10 else 0))%Q.

(** whole→"цельное", skim→"обезжиренное", oat→"овсяное", soy→"соевое";
    any other value falls back to its own text. *)
Definition milkName (milk : string) : string :=
  if String.eqb milk "whole" then "цельное"
  else if String.eqb milk "skim" then "обезжиренное"
  else if String.eqb milk "oat" then "овсяное"
  else if String.eqb milk "soy" then "соевое"
  else milk.

(** "ложка" for 1, "ложки" for 2, 3 and 4, "ложек" for 5 (no unit is
    named for other values). *)
Definition sugarUnit (sugar : Z) : string :=
  if sugar =? 1 then "ложка"
  else if (sugar =? 2) || (sugar =? 3) || (sugar =? 4) then "ложки"
  else if sugar =? 5 then "ложек"
  else "".

(** The segments of the description, in their fixed order. *)
Definition segments (size base milk : string) (sortedSyrups : list string)
    (iced : bool) (sugar : Z) : list string :=
  [size +:+ " " +:+ base]
  ++ (if String.eqb milk "none" then []
      else ["с " +:+ milkName milk +:+ " молоком"])
  ++ (match sortedSyrups with
      | [] => []
      | _ => ["+ сиропы: " +:+ String.concat ", " sortedSyrups]
      end)
  ++ (if iced then ["(со льдом)"] else [])
  ++ (if sugar >? 0 then [pretty sugar +:+ " " +:+ sugarUnit sugar +:+ " сахара"]
      else []).

Definition description (size base milk : string) (sortedSyrups : list string)
    (iced : bool) (sugar : Z) : string :=
  String.concat " " (segments size base milk sortedSyrups iced sugar).

(** [names] is the syrup set in lexicographic order. *)
Definition sorted_names (syrups : gset string) (names : list string) : Prop :=
  Sorted String.le names /\ names ≡ₚ elements syrups.

(** Claimed of [set_sugar]: over all numbers, the call fails exactly when
    the argument is below 0 or above 5. *)
Definition set_sugar_fails_exactly_out_of_range : Prop :=
  forall (v : pynum) (st : CoffeeOrderBuilder.state),
    (exists e, fst (CoffeeOrderBuilder.set_sugar v st) = Raised e)
    <-> (PyNum.ltb v (PyInt 0) = true \/ PyNum.gtb v (PyInt 5) = true).

End Spec.

(** ** Concrete inputs on which the model is run *)

Module Sample.

(** [str.lower] restricted to ASCII letters (other bytes are kept). *)
Fixpoint ascii_lower (s : string) : string :=
  match s with
  | EmptyString => EmptyString
  | String c rest =>
      let n := Ascii.nat_of_ascii c in
      String (if (65 <=? n)%nat && (n <=? 90)%nat
              then Ascii.ascii_of_nat (n + 32) else c)
             (ascii_lower rest)
  end.

(** The text of a float that is a whole number below 10^16 in magnitude,
    as Python writes it ("528.0"); a placeholder stands for the rest. *)
Definition float_repr_whole (f : spec_float) : string :=
  match f with
  | S754_zero s => if s then "-0.0" else "0.0"
  | S754_finite s m e =>
      match e with
      | Zneg p =>
          if (Zpos m mod 2 ^ Zpos p =? 0)
          then (if s then "-" else "") +:+ pretty (Zpos m / 2 ^ Zpos p) +:+ ".0"
          else "?"
      | _ =>
          if Zpos m * 2 ^ e <? 10 ^ 16
          then (if s then "-" else "") +:+ pretty (Zpos m * 2 ^ e) +:+ ".0"
          else "?"
      end
  | _ => "?"
  end.

Definition builder0 : CoffeeOrderBuilder.state :=
  snd (CoffeeOrderBuilder.__init__
         (CoffeeOrderBuilder.mk None None "" ∅ (PyInt 0) false)).

(** The attributes after a chain of mutator calls. *)
Definition chain (calls : list CoffeeOrderBuilder.call)
    (st : CoffeeOrderBuilder.state) : CoffeeOrderBuilder.state :=
  fold_left
    (fun st c => CoffeeOrderBuilder.after ascii_lower float_repr_whole c st)
    calls st.

(** cappuccino, large, two syrups, iced. *)
Definition iced_cappuccino : CoffeeOrderBuilder.state :=
  chain [CoffeeOrderBuilder.SetBase "cappuccino";
         CoffeeOrderBuilder.SetSize "large";
         CoffeeOrderBuilder.AddSyrup "карамель";
         CoffeeOrderBuilder.AddSyrup "ваниль";
         CoffeeOrderBuilder.SetIced (Some true)] builder0.

(** latte, medium, oat milk, one syrup, one spoon of sugar, iced. *)
Definition sweet_latte : CoffeeOrderBuilder.state :=
  chain [CoffeeOrderBuilder.SetBase "latte";
         CoffeeOrderBuilder.SetSize "medium";
         CoffeeOrderBuilder.SetMilk "oat";
         CoffeeOrderBuilder.AddSyrup "Vanilla";
         CoffeeOrderBuilder.SetSugar (PyInt 1);
         CoffeeOrderBuilder.SetIced (Some true)] builder0.

(** Four syrups already present. *)
Definition four_syrups : CoffeeOrderBuilder.state :=
  chain [CoffeeOrderBuilder.AddSyrup "a"; CoffeeOrderBuilder.AddSyrup "b";
         CoffeeOrderBuilder.AddSyrup "c"; CoffeeOrderBuilder.AddSyrup "d"] builder0.

(** Only the base is set. *)
Definition latte_only : CoffeeOrderBuilder.state :=
  chain [CoffeeOrderBuilder.SetBase "latte"] builder0.

(** Attributes no sequence of calls produces: six spoons of sugar, and
    five syrups, written into the object directly. *)
Definition six_spoons : CoffeeOrderBuilder.state :=
  CoffeeOrderBuilder.mk (Some "latte") (Some "medium") "none" ∅ (PyInt 6) false.
Definition five_syrups : CoffeeOrderBuilder.state :=
  CoffeeOrderBuilder.mk (Some "latte") (Some "medium") "none"
    (list_to_set ["a"; "b"; "c"; "d"; "e"]) (PyInt 0) false.

(** A milk that is in no table, written into the object directly. *)
Definition almond_milk : CoffeeOrderBuilder.state :=
  CoffeeOrderBuilder.mk (Some "latte") (Some "medium") "almond" ∅ (PyInt 0) false.

(** The double 668.2. *)
Definition f668_2 : spec_float := Float64.of_ratio false 6682 10.

(** The double 528.2 and the double 2.5. *)
Definition f528_2 : spec_float := S754_finite false 4646096334330266 (-43).
Definition f2_5 : spec_float := S754_finite false 5629499534213120 (-51).

End Sample.

(** ** Pure forms of the code's arithmetic, used by the proofs *)

Module Pure.

(** The arithmetic of [_calculate_price] on the values it has read. *)
Definition price (base_price multiplier milk_price : pynum) (syrup_count : Z)
    (iced : bool) : pynum :=
  let price := PyNum.mul base_price multiplier in
  let price := PyNum.add price milk_price in
  let price :=
    PyNum.add price
      (PyNum.mul (PyInt syrup_count) (PyInt CoffeeOrderBuilder.SYRUP_PRICE)) in
  let price := if iced then PyNum.add price CoffeeOrderBuilder.ICED_PRICE else price in
  PyNum.round2 price.

(** The table entries of the enumeration members. *)
Definition base_price (b : CoffeeBase) : pynum :=
  match b with
  | ESPRESSO => PyInt 200
  | AMERICANO => PyInt 250
  | LATTE => PyInt 300
  | CAPPUCCINO => PyInt 320
  end.

Definition multiplier (s : CoffeeSize) : pynum :=
  match s with
  | SMALL => PyFloat Float64.lit_1_0
  | MEDIUM => PyFloat Float64.lit_1_2
  | LARGE => PyFloat Float64.lit_1_4
  end.

Definition milk_price (m : MilkType) : pynum :=
  match m with
  | NONE => PyInt 0
  | WHOLE => PyInt 30
  | SKIM => PyInt 30
  | OAT => PyInt 60
  | SOY => PyInt 50
  end.

(** The same arithmetic before the final [round(price, 2)]. *)
Definition price_sum (base_price multiplier milk_price : pynum) (syrup_count : Z)
    (iced : bool) : pynum :=
  let price := PyNum.mul base_price multiplier in
  let price := PyNum.add price milk_price in
  let price :=
    PyNum.add price
      (PyNum.mul (PyInt syrup_count) (PyInt CoffeeOrderBuilder.SYRUP_PRICE)) in
  if iced then PyNum.add price CoffeeOrderBuilder.ICED_PRICE else price.

(** A method body that leaves the attributes as they were. *)
Definition read_only {A : Type} (m : CoffeeOrderBuilder.M A) : Prop :=
  forall st, snd (m st) = st.

End Pure.

(** * Properties *)

(** ** Numbers *)

Lemma compare_int_flip (x : pynum) (z : Z) :
  PyNum.compare (PyInt z) x = CompOpp <$> PyNum.compare x (PyInt z).
Proof.
  destruct x as [y|f]; simpl.
  - f_equal. apply Z.compare_antisym.
  - destruct (Float64.compare_int z f) as [[]|]; reflexivity.
Qed.

Lemma leb_int_not_gtb (x : pynum) (z : Z) :
  PyNum.leb x (PyInt z) = true -> PyNum.gtb x (PyInt z) = false.
Proof.
  unfold PyNum.gtb, PyNum.leb, PyNum.ltb. rewrite compare_int_flip.
  destruct (PyNum.compare x (PyInt z)) as [[]|]; simpl; congruence.
Qed.

Lemma gtb_int_not_leb (x : pynum) (z : Z) :
  PyNum.gtb x (PyInt z) = true -> PyNum.leb x (PyInt z) = false.
Proof.
  unfold PyNum.gtb, PyNum.leb, PyNum.ltb. rewrite compare_int_flip.
  destruct (PyNum.compare x (PyInt z)) as [[]|]; simpl; congruence.
Qed.

(** ** Texts and enumerations *)

Lemma truthy_Some (o : option string) (s : string) :
  truthy o = Some s -> o = Some s /\ s <> "".
Proof.
  destruct o as [t|]; simpl; [|discriminate].
  destruct (String.eqb_spec t ""); [discriminate|].
  intros [= <-]. split; [reflexivity | assumption].
Qed.

Lemma truthy_set (o : option string) :
  truthy o <> None -> exists s, truthy o = Some s.
Proof. destruct (truthy o) as [s|]; [exists s; reflexivity | congruence]. Qed.

Lemma contains_cons (x y : string) (ys : list string) :
  Enum.contains (y :: ys) x = true -> x = y \/ Enum.contains ys x = true.
Proof.
  unfold Enum.contains. simpl. intros [H|H]%orb_true_iff.
  - left. by apply String.eqb_eq.
  - right. exact H.
Qed.

Lemma contains_base_values (x : string) :
  Enum.contains Enum.base_values x = true -> exists b, x = Enum.base_value b.
Proof.
  unfold Enum.base_values, map. intros H.
  repeat (apply contains_cons in H as [->|H]; [eexists; reflexivity|]).
  discriminate.
Qed.

Lemma contains_size_values (x : string) :
  Enum.contains Enum.size_values x = true -> exists s, x = Enum.size_value s.
Proof.
  unfold Enum.size_values, map. intros H.
  repeat (apply contains_cons in H as [->|H]; [eexists; reflexivity|]).
  discriminate.
Qed.

Lemma contains_milk_values (x : string) :
  Enum.contains Enum.milk_values x = true -> exists m, x = Enum.milk_value m.
Proof.
  unfold Enum.milk_values, map. intros H.
  repeat (apply contains_cons in H as [->|H]; [eexists; reflexivity|]).
  discriminate.
Qed.

(** ** Method bodies that only read the attributes *)

Lemma read_only_ret {A : Type} (a : A) : Pure.read_only (CoffeeOrderBuilder.ret a).
Proof. intros st. reflexivity. Qed.

Lemma read_only_raise {A : Type} (e : exn) :
  Pure.read_only (CoffeeOrderBuilder.raise (A := A) e).
Proof. intros st. reflexivity. Qed.

Lemma read_only_gets {A : Type} (field : CoffeeOrderBuilder.state -> A) :
  Pure.read_only (CoffeeOrderBuilder.gets field).
Proof. intros st. reflexivity. Qed.

Lemma read_only_getitem (table : gmap string pynum) (key : option string) :
  Pure.read_only (CoffeeOrderBuilder.getitem table key).
Proof.
  intros st. unfold CoffeeOrderBuilder.getitem.
  destruct key as [k|]; [destruct (table !! k)|]; reflexivity.
Qed.

Lemma read_only_bind {A B : Type} (m : CoffeeOrderBuilder.M A)
    (k : A -> CoffeeOrderBuilder.M B) :
  Pure.read_only m -> (forall a, Pure.read_only (k a)) ->
  Pure.read_only (CoffeeOrderBuilder.bind m k).
Proof.
  intros Hm Hk st. unfold CoffeeOrderBuilder.bind.
  specialize (Hm st). destruct (m st) as [[a|e] st']; simpl in Hm; subst st'.
  - apply Hk.
  - reflexivity.
Qed.

Lemma read_only_run {A : Type} (m : CoffeeOrderBuilder.M A) (st : CoffeeOrderBuilder.state) :
  Pure.read_only m -> m st = (fst (m st), st).
Proof. intros H. rewrite <- (H st) at 3. apply surjective_pairing. Qed.

Ltac read_only_step :=
  first
    [ apply read_only_ret
    | apply read_only_raise
    | apply read_only_gets
    | apply read_only_getitem
    | apply read_only_bind; [| intro]
    | match goal with
      | |- Pure.read_only (match ?x with _ => _ end) => destruct x
      end ].

Lemma read_only_calculate_price : Pure.read_only CoffeeOrderBuilder._calculate_price.
Proof. unfold CoffeeOrderBuilder._calculate_price. repeat read_only_step. Qed.

Section BuilderProperties.

Import CoffeeOrderBuilder.

Variable str_lower : string -> string.
Variable float_repr : spec_float -> string.

Lemma read_only_generate_description :
  Pure.read_only (_generate_description float_repr).
Proof. unfold _generate_description. repeat read_only_step. Qed.

Lemma read_only_build : Pure.read_only (build float_repr).
Proof.
  unfold build.
  repeat first
    [ apply read_only_calculate_price
    | apply read_only_generate_description
    | read_only_step ].
Qed.

(** [reset] overwrites every attribute. *)
Lemma reset_run (st : state) :
  reset st = (Returned Self, mk None None "none" ∅ (PyInt 0) false).
Proof. reflexivity. Qed.

Lemma state_eta (st : state) :
  mk (_base st) (_size st) (_milk st) (_syrups st) (_sugar st) (_iced st) = st.
Proof. destruct st; reflexivity. Qed.

(** *** Syrup sets *)

Lemma add_present (x : string) (S : gset string) : x ∈ S -> {[x]} ∪ S = S.
Proof. intros H. apply subseteq_union_1_L, singleton_subseteq_l, H. Qed.

Lemma size_add_absent (x : string) (S : gset string) :
  x ∉ S -> size ({[x]} ∪ S) = Datatypes.S (size S).
Proof.
  intros H. rewrite size_union; [|set_solver]. by rewrite size_singleton.
Qed.

Lemma size_add_le (x : string) (S : gset string) :
  (size ({[x]} ∪ S) <= Datatypes.S (size S))%nat.
Proof.
  destruct (decide (x ∈ S)) as [H|H].
  - rewrite add_present by assumption. lia.
  - rewrite size_add_absent by assumption. lia.
Qed.

(** *** The invariant *)

Lemma invariant_parts (st : state) :
  invariant st = true <->
  valid_opt Enum.base_values (_base st) = true
  /\ valid_opt Enum.size_values (_size st) = true
  /\ Enum.contains Enum.milk_values (_milk st) = true
  /\ len (_syrups st) <= MAX_SYRUPS
  /\ PyNum.leb (PyInt 0) (_sugar st) = true
  /\ PyNum.leb (_sugar st) (PyInt MAX_SUGAR) = true.
Proof.
  unfold invariant. rewrite !andb_true_iff, Z.leb_le. tauto.
Qed.

Lemma invariant_new (st0 : state) : invariant (snd (__init__ st0)) = true.
Proof. reflexivity. Qed.

Lemma after_build (st : state) : after str_lower float_repr Build st = st.
Proof. apply read_only_build. Qed.

Lemma invariant_after (c : call) (st : state) :
  invariant st = true -> invariant (after str_lower float_repr c st) = true.
Proof.
  intros Hinv.
  destruct c as [base|size|milk|name|teaspoons|iced| | |];
    [ | | | | | | | | rewrite after_build; exact Hinv ];
    apply invariant_parts in Hinv as (Hb & Hs & Hm & Hn & Hlo & Hhi);
    apply invariant_parts; simpl.
  - unfold set_base. destruct (Enum.contains Enum.base_values base) eqn:E; simpl; auto 10.
  - unfold set_size. destruct (Enum.contains Enum.size_values size) eqn:E; simpl; auto 10.
  - unfold set_milk. destruct (Enum.contains Enum.milk_values milk) eqn:E; simpl; auto 10.
  - unfold add_syrup, bind, gets.
    destruct (len (_syrups st) >=? MAX_SYRUPS) eqn:E; simpl; [auto 10|].
    repeat split; try assumption.
    rewrite Z.geb_leb in E. apply Z.leb_gt in E. unfold len, MAX_SYRUPS in *.
    pose proof (size_add_le (str_lower name) (_syrups st)). lia.
  - unfold set_sugar.
    destruct (PyNum.leb (PyInt 0) teaspoons) eqn:E1;
      destruct (PyNum.leb teaspoons (PyInt MAX_SUGAR)) eqn:E2; simpl; auto 10.
  - auto 10.
  - repeat split; first [assumption | reflexivity | (cbv; discriminate)].
  - repeat split; first [reflexivity | (cbv; discriminate)].
Qed.

Lemma reachable_invariant (st : state) :
  reachable str_lower float_repr st -> invariant st = true.
Proof.
  induction 1 as [st0|c st _ IH].
  - apply invariant_new.
  - apply invariant_after, IH.
Qed.

(** *** Running [_calculate_price] and [build] *)

Lemma truthy_base_value (b : CoffeeBase) :
  truthy (Some (Enum.base_value b)) = Some (Enum.base_value b).
Proof. destruct b; reflexivity. Qed.

Lemma truthy_size_value (s : CoffeeSize) :
  truthy (Some (Enum.size_value s)) = Some (Enum.size_value s).
Proof. destruct s; reflexivity. Qed.

Lemma getitem_base (b : CoffeeBase) (st : state) :
  getitem BASE_PRICES (Some (Enum.base_value b)) st = (Returned (Pure.base_price b), st).
Proof. destruct b; reflexivity. Qed.

Lemma getitem_size (s : CoffeeSize) (st : state) :
  getitem SIZE_MULTIPLIERS (Some (Enum.size_value s)) st
  = (Returned (Pure.multiplier s), st).
Proof. destruct s; reflexivity. Qed.

Lemma getitem_milk (m : MilkType) (st : state) :
  getitem MILK_PRICES (Some (Enum.milk_value m)) st = (Returned (Pure.milk_price m), st).
Proof. destruct m; reflexivity. Qed.

Lemma calculate_price_run (st : state) (b : CoffeeBase) (s : CoffeeSize) (m : MilkType) :
  _base st = Some (Enum.base_value b) ->
  _size st = Some (Enum.size_value s) ->
  _milk st = Enum.milk_value m ->
  _calculate_price st
  = (Returned (Pure.price (Pure.base_price b) (Pure.multiplier s) (Pure.milk_price m)
                 (len (_syrups st)) (_iced st)), st).
Proof.
  intros Hb Hs Hm. unfold _calculate_price, bind, gets.
  repeat progress
    (cbv beta iota;
     rewrite ?Hb, ?Hs, ?Hm, ?truthy_base_value, ?truthy_size_value,
       ?getitem_base, ?getitem_size, ?getitem_milk).
  reflexivity.
Qed.

Lemma build_run (st : state) (bv sv d : string) (p : pynum) :
  truthy (_base st) = Some bv ->
  truthy (_size st) = Some sv ->
  PyNum.gtb (_sugar st) (PyInt MAX_SUGAR) = false ->
  (len (_syrups st) >? MAX_SYRUPS) = false ->
  _calculate_price st = (Returned p, st) ->
  _generate_description float_repr st = (Returned d, st) ->
  build float_repr st
  = (Returned (CoffeeOrder.mk bv sv (_milk st) (sorted (elements (_syrups st)))
                 (_sugar st) (_iced st) p d), st).
Proof.
  intros Hb Hs Hg Hn Hp Hd. unfold build, bind, gets.
  repeat progress (cbv beta iota; rewrite ?Hb, ?Hs, ?Hg, ?Hn, ?Hp, ?Hd).
  apply truthy_Some in Hb as [-> _]. apply truthy_Some in Hs as [-> _].
  reflexivity.
Qed.

Lemma generate_description_returns (st : state) :
  exists d, _generate_description float_repr st = (Returned d, st).
Proof.
  unfold _generate_description, bind, gets.
  destruct (truthy (_base st)), (truthy (_size st)); eexists; reflexivity.
Qed.

(** On the states the setters produce, with base and size set, the
    guards of [build] pass and the tables have the keys. *)
Lemma invariant_set (st : state) :
  invariant st = true ->
  truthy (_base st) <> None ->
  truthy (_size st) <> None ->
  exists (b : CoffeeBase) (s : CoffeeSize) (m : MilkType),
    _base st = Some (Enum.base_value b)
    /\ _size st = Some (Enum.size_value s)
    /\ _milk st = Enum.milk_value m
    /\ PyNum.gtb (_sugar st) (PyInt MAX_SUGAR) = false
    /\ (len (_syrups st) >? MAX_SYRUPS) = false
    /\ 0 <= len (_syrups st) <= 4.
Proof.
  intros (Hb & Hs & Hm & Hn & _ & Hhi)%invariant_parts Hbase Hsize.
  apply truthy_set in Hbase as [bv [Ebv _]%truthy_Some].
  apply truthy_set in Hsize as [sv [Esv _]%truthy_Some].
  rewrite Ebv in Hb. rewrite Esv in Hs. simpl in Hb, Hs.
  apply contains_base_values in Hb as [b ->].
  apply contains_size_values in Hs as [s ->].
  apply contains_milk_values in Hm as [m Hm].
  exists b, s, m. repeat split; try assumption.
  - by apply leb_int_not_gtb.
  - rewrite Z.gtb_ltb. apply Z.ltb_ge. exact Hn.
  - unfold len. lia.
Qed.

(** The float arithmetic of the code lands on the double nearest to the
    exact decimal price, for every entry of the tables. *)
Lemma price_nearest (b : CoffeeBase) (s : CoffeeSize) (m : MilkType) (n : Z)
    (iced : bool) :
  0 <= n <= 4 ->
  exists f,
    Pure.price (Pure.base_price b) (Pure.multiplier s) (Pure.milk_price m) n iced
    = PyFloat f
    /\ Float64.nearest (Spec.price b s m n iced) f = true.
Proof.
  intros Hn.
  assert (n = 0 \/ n = 1 \/ n = 2 \/ n = 3 \/ n = 4) as [->|[->|[->|[->| ->]]]] by lia;
    destruct b, s, m, iced;
    match goal with
    | |- exists f, ?p = _ /\ _ =>
        match eval vm_compute in p with
        | PyFloat ?f => exists f; split; vm_compute; reflexivity
        end
    end.
Qed.

(** *** Price of a built order *)

(** C1. On every builder a caller can hold in which base and size are
    set, [build] returns an order (and leaves the builder as it was) whose
    price is the code's float evaluation of
    base price × size multiplier + milk price + 40 × syrup count (+ 0.2 when
    iced) passed through [round(_, 2)], and that float is the double nearest
    to the exact decimal value of the same formula over the tables of the
    specification, rounded to two decimals. In particular with milk "none",
    no syrups and no ice it is the double nearest to
    basePrice × sizeMultiplier rounded to two decimals, and for cappuccino,
    large, two syrups, iced it is the double 528.2. *)
Theorem build_price_formula (st : state) :
  reachable str_lower float_repr st ->
  truthy (_base st) <> None ->
  truthy (_size st) <> None ->
  exists (b : CoffeeBase) (s : CoffeeSize) (m : MilkType)
         (order : CoffeeOrder.t) (f : spec_float),
    _base st = Some (Enum.base_value b)
    /\ _size st = Some (Enum.size_value s)
    /\ _milk st = Enum.milk_value m
    /\ build float_repr st = (Returned order, st)
    /\ CoffeeOrder.price order
       = Pure.price (Pure.base_price b) (Pure.multiplier s) (Pure.milk_price m)
           (len (_syrups st)) (_iced st)
    /\ CoffeeOrder.price order = PyFloat f
    /\ Float64.nearest (Spec.price b s m (len (_syrups st)) (_iced st)) f = true
    /\ (m = NONE -> _syrups st = ∅ -> _iced st = false ->
        Float64.nearest (Spec.round2 (Spec.basePrice b * Spec.sizeMultiplier s)) f = true)
    /\ (b = CAPPUCCINO -> s = LARGE -> m = NONE ->
        len (_syrups st) = 2 -> _iced st = true ->
        f = Sample.f528_2 /\ Float64.nearest (5282 # 10) f = true).
Proof.
  intros Hreach Hbase Hsize.
  pose proof (reachable_invariant st Hreach) as Hinv.
  destruct (invariant_set st Hinv Hbase Hsize)
    as (b & s & m & Hb & Hs & Hm & Hsugar & Hcount & Hlen).
  destruct (price_nearest b s m (len (_syrups st)) (_iced st) Hlen) as (f & Hf & Hnear).
  destruct (generate_description_returns st) as [d Hd].
  pose proof (calculate_price_run st b s m Hb Hs Hm) as Hp.
  exists b, s, m.
  eexists. exists f.
  split; [exact Hb|]. split; [exact Hs|]. split; [exact Hm|].
  split.
  { eapply (build_run st (Enum.base_value b) (Enum.size_value s) d);
      [ rewrite Hb; apply truthy_base_value
      | rewrite Hs; apply truthy_size_value
      | exact Hsugar | exact Hcount | exact Hp | exact Hd ]. }
  split; [reflexivity|]. split; [exact Hf|]. split; [exact Hnear|].
  split.
  - intros -> Hempty Hiced. rewrite Hempty, Hiced in Hf.
    destruct b, s; vm_compute in Hf; injection Hf as <-; vm_compute; reflexivity.
  - intros -> -> -> Hlen2 Hiced. rewrite Hlen2, Hiced in Hf.
    vm_compute in Hf. injection Hf as <-. split; vm_compute; reflexivity.
Qed.

(** *** Description of a built order *)

Lemma append_assoc (a b c : string) : (a +:+ b) +:+ c = a +:+ (b +:+ c).
Proof.
  induction a as [|x a IH]; [reflexivity|].
  change (String x ((a +:+ b) +:+ c) = String x (a +:+ (b +:+ c))).
  f_equal. exact IH.
Qed.

(** Joining [size] and [base] as two parts or as one segment is the same. *)
Lemma join_head (a b : string) (rest : list string) :
  join " " (a :: b :: rest) = String.concat " " ((a +:+ " " +:+ b) :: rest).
Proof.
  unfold join. destruct rest as [|c rest]; [reflexivity|].
  change (a +:+ " " +:+ (b +:+ " " +:+ String.concat " " (c :: rest))
          = (a +:+ " " +:+ b) +:+ " " +:+ String.concat " " (c :: rest)).
  rewrite !append_assoc. reflexivity.
Qed.

Lemma milk_names_lookup (milk : string) :
  default milk (milk_names !! milk) = Spec.milkName milk.
Proof.
  unfold milk_names, Spec.milkName. simpl list_to_map.
  destruct (String.eqb_spec milk "whole") as [->|Hw]; [reflexivity|].
  rewrite lookup_insert_ne by congruence.
  destruct (String.eqb_spec milk "skim") as [->|Hs]; [reflexivity|].
  rewrite lookup_insert_ne by congruence.
  destruct (String.eqb_spec milk "oat") as [->|Ho]; [reflexivity|].
  rewrite lookup_insert_ne by congruence.
  destruct (String.eqb_spec milk "soy") as [->|Hy]; [reflexivity|].
  rewrite lookup_insert_ne by congruence.
  reflexivity.
Qed.

Lemma gtb_int (z w : Z) : PyNum.gtb (PyInt z) (PyInt w) = (z >? w).
Proof.
  unfold PyNum.gtb, PyNum.ltb, PyNum.compare, Z.gtb.
  rewrite (Z.compare_antisym z w). destruct (z ?= w); reflexivity.
Qed.

Lemma sorted_names_sorted (S : gset string) :
  Spec.sorted_names S (sorted (elements S)).
Proof.
  split.
  - apply (Sorted_merge_sort String.le).
  - apply merge_sort_Permutation.
Qed.

Lemma len_sorted (S : gset string) :
  len S = Z.of_nat (length (sorted (elements S))).
Proof.
  unfold len, sorted. f_equal.
  rewrite (Permutation_length (merge_sort_Permutation String.le (elements S))).
  reflexivity.
Qed.

(** The text assembled by the code is the one the specification words,
    whatever the milk text is, when the sugar is an int of at most 5. *)
Lemma generate_description_run (st : state) (bv sv : string) (z : Z) :
  truthy (_base st) = Some bv ->
  truthy (_size st) = Some sv ->
  _sugar st = PyInt z ->
  z <= 5 ->
  _generate_description float_repr st
  = (Returned (Spec.description sv bv (_milk st) (sorted (elements (_syrups st)))
                 (_iced st) z), st).
Proof.
  intros Hb Hs Hz Hle. unfold _generate_description, bind, gets.
  repeat progress (cbv beta iota; rewrite ?Hb, ?Hs, ?Hz).
  unfold ret. do 2 f_equal.
  unfold Spec.description, Spec.segments.
  rewrite milk_names_lookup, gtb_int, len_sorted.
  destruct (String.eqb (_milk st) "none"),
           (sorted (elements (_syrups st))) as [|name names],
           (_iced st);
    cbn [negb length Z.of_nat Z.eqb app];
    (destruct (z >? 0) eqn:Hpos;
     [ assert (z = 1 \/ z = 2 \/ z = 3 \/ z = 4 \/ z = 5)
         as [->|[->|[->|[->| ->]]]] by lia
     | ]);
    apply join_head.
Qed.

Lemma leb_int (z w : Z) : PyNum.leb (PyInt z) (PyInt w) = (z <=? w).
Proof. reflexivity. Qed.

(** C2. On every builder a caller can hold in which base and size are set
    and whose sugar is an int, [build] returns an order whose description
    is the specification's text: the segments "{size} {base}", the milk
    segment unless milk is "none", "+ сиропы: " with the syrup names in
    lexicographic order joined by ", " unless there is no syrup,
    "(со льдом)" when iced, and "{sugar} {unit} сахара" when sugar > 0,
    joined by single spaces in this order. The milk text reaching [build]
    is always one of the enumeration, so the fallback of the milk name is
    not exercised there; [generate_description_run] covers it for the
    description code alone. *)
Theorem build_description (st : state) (z : Z) :
  reachable str_lower float_repr st ->
  truthy (_base st) <> None ->
  truthy (_size st) <> None ->
  _sugar st = PyInt z ->
  exists (bv sv : string) (names : list string) (order : CoffeeOrder.t),
    _base st = Some bv
    /\ _size st = Some sv
    /\ Spec.sorted_names (_syrups st) names
    /\ build float_repr st = (Returned order, st)
    /\ CoffeeOrder.syrups order = names
    /\ CoffeeOrder.description order
       = Spec.description sv bv (_milk st) names (_iced st) z.
Proof.
  intros Hreach Hbase Hsize Hz.
  pose proof (reachable_invariant st Hreach) as Hinv.
  destruct (invariant_set st Hinv Hbase Hsize)
    as (b & s & m & Hb & Hs & Hm & Hsugar & Hcount & _).
  apply invariant_parts in Hinv as (_ & _ & _ & _ & _ & Hhi).
  rewrite Hz, leb_int in Hhi. apply Z.leb_le in Hhi.
  assert (truthy (_base st) = Some (Enum.base_value b)) as Htb
    by (rewrite Hb; apply truthy_base_value).
  assert (truthy (_size st) = Some (Enum.size_value s)) as Hts
    by (rewrite Hs; apply truthy_size_value).
  exists (Enum.base_value b), (Enum.size_value s), (sorted (elements (_syrups st))).
  eexists.
  split; [exact Hb|]. split; [exact Hs|].
  split; [apply sorted_names_sorted|].
  split.
  { eapply build_run;
      [ exact Htb | exact Hts | exact Hsugar | exact Hcount
      | apply (calculate_price_run st b s m Hb Hs Hm)
      | apply (generate_description_run st _ _ z Htb Hts Hz Hhi) ]. }
  split; reflexivity.
Qed.

(** *** Adding a syrup *)

(** C3. [add_syrup] raises its ValueError (the limit error) whenever four
    or more syrups are present, whether or not the lowercased name is among
    them, and then changes nothing; below four, a lowercased name already
    present makes the call return the builder with every attribute as it
    was; otherwise the call returns the builder with the lowercased name
    added to the set, one more syrup, and the other attributes as they
    were. *)
Theorem add_syrup_cases (name : string) (st : state) :
  (MAX_SYRUPS <= len (_syrups st) ->
   add_syrup str_lower name st = (Raised (ValueError msg_too_many_syrups), st))
  /\ (len (_syrups st) < MAX_SYRUPS -> str_lower name ∈ _syrups st ->
      add_syrup str_lower name st = (Returned Self, st))
  /\ (len (_syrups st) < MAX_SYRUPS -> str_lower name ∉ _syrups st ->
      add_syrup str_lower name st
      = (Returned Self,
         mk (_base st) (_size st) (_milk st) ({[str_lower name]} ∪ _syrups st)
            (_sugar st) (_iced st))
      /\ len ({[str_lower name]} ∪ _syrups st) = len (_syrups st) + 1).
Proof.
  unfold add_syrup, bind, gets. cbv beta iota.
  split; [|split].
  - intros H.
    assert ((len (_syrups st) >=? MAX_SYRUPS) = true) as -> by (apply Z.geb_le; lia).
    reflexivity.
  - intros H Hin.
    assert ((len (_syrups st) >=? MAX_SYRUPS) = false) as ->
      by (rewrite Z.geb_leb; apply Z.leb_gt; lia).
    unfold assign_syrups, ret. cbv beta iota.
    rewrite add_present by assumption. by rewrite state_eta.
  - intros H Hin.
    assert ((len (_syrups st) >=? MAX_SYRUPS) = false) as ->
      by (rewrite Z.geb_leb; apply Z.leb_gt; lia).
    split; [reflexivity|].
    unfold len. rewrite size_add_absent by assumption. lia.
Qed.

(** *** Missing fields *)

Lemma build_no_base (st : state) :
  truthy (_base st) = None ->
  build float_repr st = (Raised (ValueError msg_no_base), st).
Proof.
  intros H. unfold build, bind, gets. cbv beta iota. rewrite H. reflexivity.
Qed.

Lemma build_no_size (st : state) :
  truthy (_base st) <> None ->
  truthy (_size st) = None ->
  build float_repr st = (Raised (ValueError msg_no_size), st).
Proof.
  intros [bv Hb]%truthy_set Hs. unfold build, bind, gets.
  repeat progress (cbv beta iota; rewrite ?Hb, ?Hs). reflexivity.
Qed.

(** C4. [build] raises its ValueError for a missing field when base or
    size is unset (None or the empty text) and changes nothing: with base
    unset, whether or not size is set, the error is the one naming base;
    with base set and size unset it is the one naming size; the two
    messages differ. *)
Theorem build_missing_field (st : state) :
  (truthy (_base st) = None ->
   build float_repr st = (Raised (ValueError "Не указана основа кофе (base)"), st))
  /\ (truthy (_base st) <> None -> truthy (_size st) = None ->
      build float_repr st = (Raised (ValueError "Не указан размер кофе (size)"), st))
  /\ msg_no_base <> msg_no_size.
Proof.
  split; [apply build_no_base|]. split; [apply build_no_size|].
  discriminate.
Qed.

(** *** Failing calls and repeated builds *)

(** C5. A call of [set_base], [set_size], [set_milk], [add_syrup] or
    [set_sugar] that raises leaves every attribute of the builder as it
    was; [build] leaves every attribute as it was whether it raises or
    returns, so building twice in a row gives the same outcome (equal
    orders, or the same error). *)
Theorem failed_calls_change_nothing (st : state) :
  (forall base e, fst (set_base base st) = Raised e -> snd (set_base base st) = st)
  /\ (forall size e, fst (set_size size st) = Raised e -> snd (set_size size st) = st)
  /\ (forall milk e, fst (set_milk milk st) = Raised e -> snd (set_milk milk st) = st)
  /\ (forall name e, fst (add_syrup str_lower name st) = Raised e ->
      snd (add_syrup str_lower name st) = st)
  /\ (forall teaspoons e, fst (set_sugar teaspoons st) = Raised e ->
      snd (set_sugar teaspoons st) = st)
  /\ snd (build float_repr st) = st
  /\ fst (build float_repr (snd (build float_repr st))) = fst (build float_repr st).
Proof.
  repeat split.
  - intros base e. unfold set_base.
    destruct (Enum.contains Enum.base_values base); simpl; [discriminate | reflexivity].
  - intros size e. unfold set_size.
    destruct (Enum.contains Enum.size_values size); simpl; [discriminate | reflexivity].
  - intros milk e. unfold set_milk.
    destruct (Enum.contains Enum.milk_values milk); simpl; [discriminate | reflexivity].
  - intros name e. unfold add_syrup, bind, gets. cbv beta iota.
    destruct (len (_syrups st) >=? MAX_SYRUPS); simpl; [reflexivity | discriminate].
  - intros teaspoons e. unfold set_sugar.
    destruct (PyNum.leb (PyInt 0) teaspoons && PyNum.leb teaspoons (PyInt MAX_SUGAR));
      simpl; [discriminate | reflexivity].
  - apply read_only_build.
  - rewrite (read_only_build st). reflexivity.
Qed.

(** *** Sugar *)

(** C6. For an int argument, [set_sugar] returns the builder with the
    value stored exactly when the value is one of 0, 1, 2, 3, 4, 5; for
    every other int it raises its ValueError and leaves the builder, its
    sugar included, as it was. *)
Theorem set_sugar_int (z : Z) (st : state) :
  set_sugar (PyInt z) st
  = (if (0 <=? z) && (z <=? 5)
     then (Returned Self,
           mk (_base st) (_size st) (_milk st) (_syrups st) (PyInt z) (_iced st))
     else (Raised (ValueError "Сахар должен быть от 0 до 5 чайных ложек"), st))
  /\ ((0 <=? z) && (z <=? 5) = true
      <-> z = 0 \/ z = 1 \/ z = 2 \/ z = 3 \/ z = 4 \/ z = 5).
Proof.
  split.
  - unfold set_sugar. rewrite !leb_int. unfold MAX_SUGAR.
    destruct ((0 <=? z) && (z <=? 5)); reflexivity.
  - rewrite andb_true_iff, !Z.leb_le. lia.
Qed.

Lemma compare_not_nan (v : pynum) (z : Z) :
  PyNum.is_nan v = false -> exists c, PyNum.compare v (PyInt z) = Some c.
Proof.
  destruct v as [y|f]; simpl; [eauto|].
  destruct f; simpl; try discriminate; eauto.
Qed.

(** C10, as the code has it. [set_sugar] checks only the two comparisons
    [0 <= v] and [v <= 5]: on every number, int or float, the call returns
    the builder with [v] stored when both hold and raises otherwise, leaving
    the builder as it was. For every number other than NaN, it raises
    exactly when [v < 0] or [v > 5]; NaN, of which neither holds, is
    rejected as well. The non-integer 2.5 is accepted and stored. *)
Theorem set_sugar_bound_check (v : pynum) (st : state) :
  set_sugar v st
  = (if PyNum.leb (PyInt 0) v && PyNum.leb v (PyInt 5)
     then (Returned Self,
           mk (_base st) (_size st) (_milk st) (_syrups st) v (_iced st))
     else (Raised (ValueError msg_bad_sugar), st))
  /\ (PyNum.is_nan v = false ->
      ((exists e, fst (set_sugar v st) = Raised e)
       <-> (PyNum.ltb v (PyInt 0) = true \/ PyNum.gtb v (PyInt 5) = true)))
  /\ (PyNum.is_nan v = true ->
      fst (set_sugar v st) = Raised (ValueError msg_bad_sugar)
      /\ PyNum.ltb v (PyInt 0) = false /\ PyNum.gtb v (PyInt 5) = false)
  /\ set_sugar (PyFloat Sample.f2_5) st
     = (Returned Self,
        mk (_base st) (_size st) (_milk st) (_syrups st) (PyFloat Sample.f2_5) (_iced st)).
Proof.
  split; [|split; [|split]].
  - unfold set_sugar, MAX_SUGAR.
    destruct (PyNum.leb (PyInt 0) v && PyNum.leb v (PyInt 5)); reflexivity.
  - intros Hnan. unfold set_sugar, MAX_SUGAR, PyNum.gtb, PyNum.leb, PyNum.ltb.
    rewrite !compare_int_flip.
    destruct (compare_not_nan v 0 Hnan) as [c0 ->].
    destruct (compare_not_nan v 5 Hnan) as [c5 ->].
    destruct c0, c5; simpl; (split; [intros [e He] | intros [H|H]]);
      try discriminate; try (eexists; reflexivity); auto.
  - intros Hnan. destruct v as [y|[]]; try discriminate Hnan.
    repeat split.
  - reflexivity.
Qed.

(** *** Reachable builders *)

Lemma build_outcome (st : state) :
  invariant st = true ->
  (exists order, build float_repr st = (Returned order, st))
  \/ build float_repr st = (Raised (ValueError msg_no_base), st)
  \/ build float_repr st = (Raised (ValueError msg_no_size), st).
Proof.
  intros Hinv.
  destruct (truthy (_base st)) as [bv|] eqn:Hbase;
    [| right; left; by apply build_no_base].
  destruct (truthy (_size st)) as [sv|] eqn:Hsize;
    [| right; right; apply build_no_size; [congruence | assumption]].
  left.
  destruct (invariant_set st Hinv) as (b & s & m & Hb & Hs & Hm & Hsugar & Hcount & _);
    [congruence.. |].
  destruct (generate_description_returns st) as [d Hd].
  eexists. eapply build_run; eauto using calculate_price_run.
Qed.

(** C7. On every builder a caller can hold (a new one, and whatever any
    sequence of calls makes of it) the sugar is within [0, 5], there are at
    most 4 syrups and the milk is a member of the milk enumeration;
    hence the two limit guards of [build] are false there, and the only
    errors [build] can raise are the two for a missing field. *)
Theorem reachable_limits (st : state) :
  reachable str_lower float_repr st ->
  PyNum.leb (PyInt 0) (_sugar st) = true
  /\ PyNum.leb (_sugar st) (PyInt 5) = true
  /\ len (_syrups st) <= 4
  /\ (exists m, _milk st = Enum.milk_value m)
  /\ PyNum.gtb (_sugar st) (PyInt MAX_SUGAR) = false
  /\ (len (_syrups st) >? MAX_SYRUPS) = false
  /\ (forall e, fst (build float_repr st) = Raised e ->
      e = ValueError msg_no_base \/ e = ValueError msg_no_size)
  /\ fst (build float_repr st) <> Raised (ValueError msg_sugar_limit)
  /\ fst (build float_repr st) <> Raised (ValueError msg_syrup_limit).
Proof.
  intros Hinv%reachable_invariant.
  pose proof (build_outcome st Hinv) as Hout.
  apply invariant_parts in Hinv as (_ & _ & Hm & Hn & Hlo & Hhi).
  split; [exact Hlo|]. split; [exact Hhi|]. split; [exact Hn|].
  split; [by apply contains_milk_values|].
  split; [by apply leb_int_not_gtb|].
  split; [rewrite Z.gtb_ltb; apply Z.ltb_ge; exact Hn|].
  destruct Hout as [[order ->]|[-> | ->]]; simpl;
    (split; [intros e [=]; auto | split; discriminate]).
Qed.

(** *** Clearing the extras *)

(** C8. [clear_extras] returns the builder with milk "none", no syrups,
    sugar 0 and no ice, and with base and size exactly as they were. *)
Theorem clear_extras_run (st : state) :
  clear_extras st
  = (Returned Self, mk (_base st) (_size st) "none" ∅ (PyInt 0) false).
Proof. reflexivity. Qed.

(** *** Text of an order *)

(** C9. The text of an order is its stored description when that is not
    empty, and otherwise "{size} {base} - {price}₽" made of the order's
    size, base and price. *)
Theorem order_str (order : CoffeeOrder.t) :
  (CoffeeOrder.description order <> "" ->
   CoffeeOrder.__str__ float_repr order = CoffeeOrder.description order)
  /\ (CoffeeOrder.description order = "" ->
      CoffeeOrder.__str__ float_repr order
      = CoffeeOrder.size order +:+ " " +:+ CoffeeOrder.base order +:+ " - "
        +:+ CoffeeOrder.num_str float_repr (CoffeeOrder.price order) +:+ "₽").
Proof.
  unfold CoffeeOrder.__str__.
  destruct (String.eqb_spec (CoffeeOrder.description order) "") as [E|E]; simpl.
  - split; [congruence | reflexivity].
  - split; [reflexivity | congruence].
Qed.

End BuilderProperties.

(** ** The properties on concrete builders *)

Lemma reachable_chain (calls : list CoffeeOrderBuilder.call) (st : CoffeeOrderBuilder.state) :
  CoffeeOrderBuilder.reachable Sample.ascii_lower Sample.float_repr_whole st ->
  CoffeeOrderBuilder.reachable Sample.ascii_lower Sample.float_repr_whole
    (Sample.chain calls st).
Proof.
  revert st. induction calls as [|c calls IH]; intros st H; [exact H|].
  apply IH. apply CoffeeOrderBuilder.reachable_call, H.
Qed.

Lemma reachable_builder0 :
  CoffeeOrderBuilder.reachable Sample.ascii_lower Sample.float_repr_whole Sample.builder0.
Proof. apply CoffeeOrderBuilder.reachable_new. Qed.

(** The double called 528.2 is the one nearest to 5282/10, and the double
    called 2.5 is exactly 5/2. *)
Lemma sample_floats :
  Float64.nearest (5282 # 10) Sample.f528_2 = true
  /\ Float64.to_Q Sample.f2_5 = Some (5629499534213120 # 2251799813685248)
  /\ Qeq (5629499534213120 # 2251799813685248) (5 # 2).
Proof. repeat split. Qed.

(** Cappuccino, large, two syrups, iced: the order costs 528.2. *)
Lemma build_price_formula_witness :
  exists order,
    CoffeeOrderBuilder.build Sample.float_repr_whole Sample.iced_cappuccino
    = (Returned order, Sample.iced_cappuccino)
    /\ CoffeeOrder.price order = PyFloat Sample.f528_2.
Proof.
  destruct (build_price_formula Sample.ascii_lower Sample.float_repr_whole
              Sample.iced_cappuccino)
    as (b & s & m & order & f & Hb & Hs & Hm & Hbuild & _ & Hprice & _ & _ & Hscen).
  - apply reachable_chain, reachable_builder0.
  - vm_compute. discriminate.
  - vm_compute. discriminate.
  - exists order. split; [exact Hbuild|].
    vm_compute in Hb, Hs, Hm.
    destruct b; try discriminate Hb.
    destruct s; try discriminate Hs.
    destruct m; try discriminate Hm.
    destruct Hscen as [-> _]; [reflexivity.. | exact Hprice].
Defined.

(** Latte, medium, oat milk, one syrup, one spoon, iced: the description. *)
Lemma build_description_witness :
  exists order,
    CoffeeOrderBuilder.build Sample.float_repr_whole Sample.sweet_latte
    = (Returned order, Sample.sweet_latte)
    /\ CoffeeOrder.description order
       = "medium latte с овсяное молоком + сиропы: vanilla (со льдом) 1 ложка сахара".
Proof.
  destruct (build_description Sample.ascii_lower Sample.float_repr_whole
              Sample.sweet_latte 1)
    as (bv & sv & names & order & Hb & Hs & _ & Hbuild & Hnames & Hdescr).
  - apply reachable_chain, reachable_builder0.
  - vm_compute. discriminate.
  - vm_compute. discriminate.
  - reflexivity.
  - exists order. split; [exact Hbuild|].
    rewrite Hdescr, <- Hnames. clear Hdescr Hnames.
    vm_compute in Hb, Hs. injection Hb as <-. injection Hs as <-.
    vm_compute in Hbuild. injection Hbuild as <-.
    vm_compute. reflexivity.
Defined.

(** With four syrups present even a name of the set is refused; with two
    present a name of the set changes nothing and a new one is added. *)
Lemma add_syrup_cases_witness :
  CoffeeOrderBuilder.add_syrup Sample.ascii_lower "A" Sample.four_syrups
  = (Raised (ValueError "Нельзя добавить больше 4 сиропов"), Sample.four_syrups)
  /\ CoffeeOrderBuilder.add_syrup Sample.ascii_lower "ваниль" Sample.iced_cappuccino
     = (Returned Self, Sample.iced_cappuccino)
  /\ CoffeeOrderBuilder.len
       (CoffeeOrderBuilder._syrups
          (snd (CoffeeOrderBuilder.add_syrup Sample.ascii_lower "Mint" Sample.iced_cappuccino)))
     = 3.
Proof.
  split; [|split].
  - apply (proj1 (add_syrup_cases Sample.ascii_lower "A" Sample.four_syrups)).
    vm_compute. discriminate.
  - apply (proj1 (proj2 (add_syrup_cases Sample.ascii_lower "ваниль" Sample.iced_cappuccino))).
    + reflexivity.
    + apply (bool_decide_unpack _). vm_compute. exact I.
  - destruct (add_syrup_cases Sample.ascii_lower "Mint" Sample.iced_cappuccino)
      as (_ & _ & Hnew).
    destruct Hnew as [Hrun Hlen].
    + reflexivity.
    + apply (bool_decide_unpack _). vm_compute. exact I.
    + rewrite Hrun. etransitivity; [exact Hlen | reflexivity].
Defined.

(** A new builder lacks its base; with only the base set the size is
    reported missing. *)
Lemma build_missing_field_witness :
  CoffeeOrderBuilder.build Sample.float_repr_whole Sample.builder0
  = (Raised (ValueError "Не указана основа кофе (base)"), Sample.builder0)
  /\ CoffeeOrderBuilder.build Sample.float_repr_whole Sample.latte_only
     = (Raised (ValueError "Не указан размер кофе (size)"), Sample.latte_only).
Proof.
  split.
  - apply (proj1 (build_missing_field Sample.float_repr_whole Sample.builder0)).
    reflexivity.
  - apply (proj1 (proj2 (build_missing_field Sample.float_repr_whole Sample.latte_only))).
    + vm_compute. discriminate.
    + reflexivity.
Defined.

(** [set_sugar(6)] after a spoon was chosen: the builder keeps its spoon. *)
Lemma failed_calls_change_nothing_witness :
  snd (CoffeeOrderBuilder.set_sugar (PyInt 6) Sample.sweet_latte) = Sample.sweet_latte
  /\ CoffeeOrderBuilder._sugar
       (snd (CoffeeOrderBuilder.set_sugar (PyInt 6) Sample.sweet_latte)) = PyInt 1.
Proof.
  destruct (failed_calls_change_nothing Sample.ascii_lower Sample.float_repr_whole
              Sample.sweet_latte) as (_ & _ & _ & _ & Hsugar & _).
  rewrite (Hsugar (PyInt 6) (ValueError CoffeeOrderBuilder.msg_bad_sugar)).
  - split; reflexivity.
  - reflexivity.
Defined.

(** Four syrups is as far as a caller gets. *)
Lemma reachable_limits_witness :
  CoffeeOrderBuilder.len (CoffeeOrderBuilder._syrups Sample.four_syrups) <= 4
  /\ (CoffeeOrderBuilder.len (CoffeeOrderBuilder._syrups Sample.four_syrups)
      >? CoffeeOrderBuilder.MAX_SYRUPS) = false.
Proof.
  destruct (reachable_limits Sample.ascii_lower Sample.float_repr_whole Sample.four_syrups)
    as (_ & _ & Hlen & _ & _ & Hguard & _).
  - apply reachable_chain, reachable_builder0.
  - split; [exact Hlen | exact Hguard].
Defined.

(** An order without description is shown by size, base and price. *)
Lemma order_str_witness :
  CoffeeOrder.__str__ Sample.float_repr_whole
    (CoffeeOrder.mk "espresso" "small" "none" [] (PyInt 0) false
       (PyFloat (Float64.of_int 200)) "")
  = "small espresso - 200.0₽".
Proof.
  rewrite (proj2 (order_str Sample.float_repr_whole _)); reflexivity.
Defined.

(** *** The bound check on numbers that are not ints *)

(** C10 as claimed fails: NaN is neither below 0 nor above 5, and
    [set_sugar] rejects it. *)
Lemma set_sugar_rejects_nan : ~ Spec.set_sugar_fails_exactly_out_of_range.
Proof.
  intros H.
  destruct (H (PyFloat Float64.nan) Sample.builder0) as [Hfails _].
  destruct Hfails as [Hlt|Hgt].
  - exists (ValueError CoffeeOrderBuilder.msg_bad_sugar). reflexivity.
  - discriminate Hlt.
  - discriminate Hgt.
Qed.

(** 2.5 is stored, 5.5 and NaN are refused. *)
Lemma set_sugar_bound_check_witness :
  CoffeeOrderBuilder._sugar
    (snd (CoffeeOrderBuilder.set_sugar (PyFloat Sample.f2_5) Sample.builder0))
  = PyFloat Sample.f2_5
  /\ (exists e,
        fst (CoffeeOrderBuilder.set_sugar (PyFloat (Float64.of_ratio false 55 10))
               Sample.builder0) = Raised e)
  /\ fst (CoffeeOrderBuilder.set_sugar (PyFloat Float64.nan) Sample.builder0)
     = Raised (ValueError CoffeeOrderBuilder.msg_bad_sugar).
Proof.
  split; [|split].
  - destruct (set_sugar_bound_check (PyFloat Sample.f2_5) Sample.builder0)
      as (_ & _ & _ & ->). reflexivity.
  - apply (set_sugar_bound_check (PyFloat (Float64.of_ratio false 55 10)) Sample.builder0).
    + reflexivity.
    + right. reflexivity.
  - apply (set_sugar_bound_check (PyFloat Float64.nan) Sample.builder0). reflexivity.
Defined.

(** * Further properties of the builder *)

Lemma contains_In (xs : list string) (x : string) :
  Enum.contains xs x = true <-> In x xs.
Proof.
  unfold Enum.contains. rewrite existsb_exists. split.
  - intros (y & Hy & ->%String.eqb_eq). exact Hy.
  - intros H. exists x. split; [exact H | apply String.eqb_refl].
Qed.

Lemma contains_false (xs : list string) (x : string) :
  ~ In x xs -> Enum.contains xs x = false.
Proof.
  intros H. destruct (Enum.contains xs x) eqn:E; [|reflexivity].
  apply contains_In in E. contradiction.
Qed.

Lemma append_nonempty (a b : string) : a <> "" -> a +:+ b <> "".
Proof.
  destruct a as [|c a]; [congruence|]. intros _.
  change (String c (a +:+ b) <> ""). discriminate.
Qed.

Section MoreProperties.

Import CoffeeOrderBuilder.

Variable str_lower : string -> string.
Variable float_repr : spec_float -> string.

(** ** The setters of the enumerated attributes *)

(** X1. [set_base] accepts exactly the four base names: for one of them it
    returns the builder with that base stored and every other attribute
    untouched; for any other text it raises a ValueError whose message
    quotes the text and lists the four names, and changes nothing. *)
Theorem set_base_closed_set (base : string) (st : state) :
  (In base ["espresso"; "americano"; "latte"; "cappuccino"] ->
   set_base base st
   = (Returned Self,
      mk (Some base) (_size st) (_milk st) (_syrups st) (_sugar st) (_iced st)))
  /\ (~ In base ["espresso"; "americano"; "latte"; "cappuccino"] ->
      set_base base st
      = (Raised (ValueError
                   ("Недопустимая основа: " +:+ base
                    +:+ ". Допустимо: ['espresso', 'americano', 'latte', 'cappuccino']")),
         st)).
Proof.
  unfold set_base. split; intros H.
  - apply (contains_In Enum.base_values) in H. rewrite H. reflexivity.
  - apply (contains_false Enum.base_values) in H. rewrite H. reflexivity.
Qed.

(** X2. [set_size] accepts exactly "small", "medium" and "large": it then
    stores the size and touches nothing else; any other text raises a
    ValueError quoting it and listing the three names, and changes nothing. *)
Theorem set_size_closed_set (size : string) (st : state) :
  (In size ["small"; "medium"; "large"] ->
   set_size size st
   = (Returned Self,
      mk (_base st) (Some size) (_milk st) (_syrups st) (_sugar st) (_iced st)))
  /\ (~ In size ["small"; "medium"; "large"] ->
      set_size size st
      = (Raised (ValueError
                   ("Недопустимый размер: " +:+ size
                    +:+ ". Допустимо: ['small', 'medium', 'large']")),
         st)).
Proof.
  unfold set_size. split; intros H.
  - apply (contains_In Enum.size_values) in H. rewrite H. reflexivity.
  - apply (contains_false Enum.size_values) in H. rewrite H. reflexivity.
Qed.

(** X3. [set_milk] accepts exactly "none", "whole", "skim", "oat" and "soy":
    it then stores the milk and touches nothing else; any other text raises
    a ValueError quoting it and listing the five names, and changes
    nothing. *)
Theorem set_milk_closed_set (milk : string) (st : state) :
  (In milk ["none"; "whole"; "skim"; "oat"; "soy"] ->
   set_milk milk st
   = (Returned Self,
      mk (_base st) (_size st) milk (_syrups st) (_sugar st) (_iced st)))
  /\ (~ In milk ["none"; "whole"; "skim"; "oat"; "soy"] ->
      set_milk milk st
      = (Raised (ValueError
                   ("Недопустимый тип молока: " +:+ milk
                    +:+ ". Допустимо: ['none', 'whole', 'skim', 'oat', 'soy']")),
         st)).
Proof.
  unfold set_milk. split; intros H.
  - apply (contains_In Enum.milk_values) in H. rewrite H. reflexivity.
  - apply (contains_false Enum.milk_values) in H. rewrite H. reflexivity.
Qed.

(** ** Starting over *)

(** X4. [reset] forgets everything: whatever the attributes were, after
    [reset] they are those of a newly made builder, and [build] on it raises
    the error for the missing base. *)
Theorem reset_forgets (st st0 : state) :
  reset st = (Returned Self, snd (__init__ st0))
  /\ build float_repr (snd (reset st))
     = (Raised (ValueError msg_no_base), snd (__init__ st0)).
Proof.
  split; [reflexivity|].
  rewrite reset_run. apply (build_no_base float_repr). reflexivity.
Qed.

(** ** What a built order carries *)

Lemma sorted_NoDup (S : gset string) : NoDup (sorted (elements S)).
Proof.
  unfold sorted. rewrite merge_sort_Permutation. apply NoDup_elements.
Qed.

Lemma sorted_elem_of (S : gset string) (x : string) :
  x ∈ sorted (elements S) <-> x ∈ S.
Proof.
  unfold sorted. rewrite merge_sort_Permutation. apply elem_of_elements.
Qed.

(** X5. On every builder a caller can hold with base and size set, the
    order [build] returns carries the builder's base, size, milk, sugar and
    ice as they are, and its syrups are the builder's set: the same names,
    each once, in ascending order, at most four of them. *)
Theorem built_order_fields (st : state) :
  reachable str_lower float_repr st ->
  truthy (_base st) <> None ->
  truthy (_size st) <> None ->
  exists order,
    build float_repr st = (Returned order, st)
    /\ Some (CoffeeOrder.base order) = _base st
    /\ Some (CoffeeOrder.size order) = _size st
    /\ CoffeeOrder.milk order = _milk st
    /\ CoffeeOrder.sugar order = _sugar st
    /\ CoffeeOrder.iced order = _iced st
    /\ Sorted String.le (CoffeeOrder.syrups order)
    /\ NoDup (CoffeeOrder.syrups order)
    /\ (forall x, x ∈ CoffeeOrder.syrups order <-> x ∈ _syrups st)
    /\ (length (CoffeeOrder.syrups order) <= 4)%nat.
Proof.
  intros Hreach Hbase Hsize.
  pose proof (reachable_invariant str_lower float_repr st Hreach) as Hinv.
  destruct (invariant_set st Hinv Hbase Hsize)
    as (b & s & m & Hb & Hs & Hm & Hsugar & Hcount & Hlen).
  destruct (generate_description_returns float_repr st) as [d Hd].
  eexists. split.
  { eapply (build_run float_repr st (Enum.base_value b) (Enum.size_value s) d);
      [ rewrite Hb; apply truthy_base_value
      | rewrite Hs; apply truthy_size_value
      | exact Hsugar | exact Hcount
      | apply (calculate_price_run st b s m Hb Hs Hm) | exact Hd ]. }
  cbn [CoffeeOrder.base CoffeeOrder.size CoffeeOrder.milk CoffeeOrder.sugar
       CoffeeOrder.iced CoffeeOrder.syrups].
  repeat split; try congruence.
  - apply sorted_names_sorted.
  - apply sorted_NoDup.
  - apply sorted_elem_of.
  - apply sorted_elem_of.
  - rewrite len_sorted in Hlen. lia.
Qed.

(** ** Syrup names are stored lowercased *)



(** ** Texts *)

Lemma generate_description_nonempty (st : state) (bv sv : string) :
  truthy (_base st) = Some bv ->
  truthy (_size st) = Some sv ->
  exists d, _generate_description float_repr st = (Returned d, st) /\ d <> "".
Proof.
  intros Hb Hs. pose proof (truthy_Some _ _ Hs) as [_ Hne].
  unfold _generate_description, bind, gets.
  repeat progress (cbv beta iota; rewrite ?Hb, ?Hs).
  eexists. split; [reflexivity|].
  destruct (negb (String.eqb (_milk st) "none")),
           (negb (len (_syrups st) =? 0)),
           (_iced st),
           (PyNum.gtb (_sugar st) (PyInt 0));
    cbn [app]; rewrite join_head; cbn [String.concat];
    rewrite ?append_assoc; apply append_nonempty, Hne.
Qed.

(** X7. The two previews of an unfinished builder: when base or size is
    unset, [_calculate_price] returns 0.0 and [_generate_description] returns
    the empty text, neither raising; when both are set the description is
    never empty. So the description preview is empty exactly when the
    builder is unfinished. *)
Theorem previews_of_unfinished_builder (st : state) :
  (truthy (_base st) = None \/ truthy (_size st) = None ->
   _calculate_price st = (Returned (PyFloat Float64.lit_0_0), st)
   /\ _generate_description float_repr st = (Returned "", st))
  /\ (fst (_generate_description float_repr st) = Returned ""
      <-> truthy (_base st) = None \/ truthy (_size st) = None).
Proof.
  assert (truthy (_base st) = None \/ truthy (_size st) = None ->
          _calculate_price st = (Returned (PyFloat Float64.lit_0_0), st)
          /\ _generate_description float_repr st = (Returned "", st)) as Hun.
  { unfold _calculate_price, _generate_description, bind, gets. cbv beta iota.
    intros [H|H]; rewrite H; [|destruct (truthy (_base st))]; split; reflexivity. }
  split; [exact Hun|]. split.
  - intros Hd.
    destruct (truthy (_base st)) as [bv|] eqn:Hb; [|by left].
    destruct (truthy (_size st)) as [sv|] eqn:Hs; [|by right].
    destruct (generate_description_nonempty st bv sv Hb Hs) as (d & Hrun & Hne).
    rewrite Hrun in Hd. simpl in Hd. congruence.
  - intros H. destruct (Hun H) as [_ ->]. reflexivity.
Qed.

(** X8. Whatever the attributes are, an order that [build] returns has a
    description that is not empty, so the text of a built order is always
    its description and never the fallback with the price. *)
Theorem built_order_text (st : state) (order : CoffeeOrder.t) :
  fst (build float_repr st) = Returned order ->
  CoffeeOrder.description order <> ""
  /\ CoffeeOrder.__str__ float_repr order = CoffeeOrder.description order.
Proof.
  intros Hbuild.
  assert (CoffeeOrder.description order <> "") as Hne.
  { revert Hbuild. unfold build, bind, gets. cbv beta iota.
    destruct (truthy (_base st)) as [bv|] eqn:Hb; [|discriminate].
    destruct (truthy (_size st)) as [sv|] eqn:Hs; [|discriminate].
    destruct (PyNum.gtb (_sugar st) (PyInt MAX_SUGAR)); [discriminate|].
    destruct (len (_syrups st) >? MAX_SYRUPS); [discriminate|].
    rewrite (read_only_run _ st read_only_calculate_price).
    destruct (fst (_calculate_price st)) as [p|e]; [|discriminate].
    destruct (generate_description_nonempty st bv sv Hb Hs) as (d & -> & Hne).
    intros [= <-]. exact Hne. }
  split; [exact Hne|].
  unfold CoffeeOrder.__str__.
  destruct (String.eqb_spec (CoffeeOrder.description order) ""); [contradiction|].
  reflexivity.
Qed.

(** ** When [build] returns *)

(** X9. On every builder a caller can hold, [build] returns an order
    exactly when base and size are both set. *)
Theorem build_returns_iff (st : state) :
  reachable str_lower float_repr st ->
  ((exists order, build float_repr st = (Returned order, st))
   <-> truthy (_base st) <> None /\ truthy (_size st) <> None).
Proof.
  intros Hinv%reachable_invariant. split.
  - intros [order Hbuild].
    destruct (truthy (_base st)) as [bv|] eqn:Hb.
    + destruct (truthy (_size st)) as [sv|] eqn:Hs; [split; discriminate|].
      rewrite (build_no_size float_repr st) in Hbuild; [discriminate| |exact Hs].
      rewrite Hb. discriminate.
    + rewrite (build_no_base float_repr st Hb) in Hbuild. discriminate.
  - intros [Hb Hs].
    destruct (invariant_set st Hinv Hb Hs)
      as (b & s & m & Eb & Es & Em & Hsugar & Hcount & _).
    destruct (generate_description_returns float_repr st) as [d Hd].
    eexists.
    eapply (build_run float_repr st (Enum.base_value b) (Enum.size_value s) d);
      [ rewrite Eb; apply truthy_base_value
      | rewrite Es; apply truthy_size_value
      | exact Hsugar | exact Hcount
      | apply (calculate_price_run st b s m Eb Es Em) | exact Hd ].
Qed.

(** ** Text of the builder *)

Lemma build_on_invariant (st : state) :
  invariant st = true ->
  truthy (_base st) <> None ->
  truthy (_size st) <> None ->
  exists (b : CoffeeBase) (s : CoffeeSize) (m : MilkType) (d : string) (f : spec_float),
    _base st = Some (Enum.base_value b)
    /\ _size st = Some (Enum.size_value s)
    /\ _milk st = Enum.milk_value m
    /\ build float_repr st
       = (Returned (CoffeeOrder.mk (Enum.base_value b) (Enum.size_value s) (_milk st)
                      (sorted (elements (_syrups st))) (_sugar st) (_iced st)
                      (PyFloat f) d), st)
    /\ _generate_description float_repr st = (Returned d, st)
    /\ Pure.price (Pure.base_price b) (Pure.multiplier s) (Pure.milk_price m)
         (len (_syrups st)) (_iced st) = PyFloat f
    /\ Float64.nearest (Spec.price b s m (len (_syrups st)) (_iced st)) f = true.
Proof.
  intros Hinv Hbase Hsize.
  destruct (invariant_set st Hinv Hbase Hsize)
    as (b & s & m & Hb & Hs & Hm & Hsugar & Hcount & Hlen).
  destruct (price_nearest b s m (len (_syrups st)) (_iced st) Hlen) as (f & Hf & Hnear).
  destruct (generate_description_returns float_repr st) as [d Hd].
  exists b, s, m, d, f. repeat split; try assumption.
  eapply (build_run float_repr st (Enum.base_value b) (Enum.size_value s) d);
    [ rewrite Hb; apply truthy_base_value
    | rewrite Hs; apply truthy_size_value
    | exact Hsugar | exact Hcount
    | rewrite <- Hf; apply (calculate_price_run st b s m Hb Hs Hm) | exact Hd ].
Qed.

Lemma read_only_str : Pure.read_only (__str__ float_repr).
Proof.
  intros st. unfold __str__, bind, gets, try_except_ValueError. cbv beta iota.
  destruct (truthy (_base st)); [|reflexivity].
  destruct (truthy (_size st)); [|reflexivity].
  rewrite (read_only_run _ st (read_only_build float_repr)).
  destruct (fst (build float_repr st)) as [order|[msg|k]]; reflexivity.
Qed.

Lemma str_of_build (st : state) (bv sv : string) :
  truthy (_base st) = Some bv ->
  truthy (_size st) = Some sv ->
  __str__ float_repr st
  = match build float_repr st with
    | (Returned order, st') =>
        (Returned ("CoffeeOrderBuilder -> " +:+ CoffeeOrder.description order), st')
    | (Raised (ValueError _), st') =>
        (Returned "CoffeeOrderBuilder (невалидное состояние)", st')
    | (Raised (KeyError k), st') => (Raised (KeyError k), st')
    end.
Proof.
  intros Hb Hs. unfold __str__, bind, gets, try_except_ValueError. cbv beta iota.
  rewrite Hb, Hs.
  destruct (build float_repr st) as [[order|[msg|k]] st']; reflexivity.
Qed.

(** X10. The text of a builder, on every builder a caller can hold: it is
    "CoffeeOrderBuilder (не заполнен)" when base or size is unset, and
    otherwise "CoffeeOrderBuilder -> " followed by the description of the
    order [build] returns; it never raises, never gives the text for an
    invalid state, and leaves the builder as it was. *)
Theorem builder_text (st : state) :
  reachable str_lower float_repr st ->
  (truthy (_base st) = None \/ truthy (_size st) = None ->
   __str__ float_repr st = (Returned "CoffeeOrderBuilder (не заполнен)", st))
  /\ (truthy (_base st) <> None -> truthy (_size st) <> None ->
      exists order,
        build float_repr st = (Returned order, st)
        /\ __str__ float_repr st
           = (Returned ("CoffeeOrderBuilder -> " +:+ CoffeeOrder.description order), st))
  /\ fst (__str__ float_repr st) <> Returned "CoffeeOrderBuilder (невалидное состояние)".
Proof.
  intros Hinv%reachable_invariant.
  assert (truthy (_base st) = None \/ truthy (_size st) = None ->
          __str__ float_repr st = (Returned "CoffeeOrderBuilder (не заполнен)", st)) as Hun.
  { unfold __str__, bind, gets. cbv beta iota.
    intros [H|H]; rewrite H; [|destruct (truthy (_base st))]; reflexivity. }
  assert (truthy (_base st) <> None -> truthy (_size st) <> None ->
          exists order,
            build float_repr st = (Returned order, st)
            /\ __str__ float_repr st
               = (Returned ("CoffeeOrderBuilder -> " +:+ CoffeeOrder.description order), st))
    as Hset.
  { intros Hb Hs.
    destruct (build_on_invariant st Hinv Hb Hs)
      as (b & s & m & d & f & Eb & Es & _ & Hbuild & _).
    eexists. split; [exact Hbuild|].
    rewrite (str_of_build st (Enum.base_value b) (Enum.size_value s)), Hbuild;
      [reflexivity | rewrite Eb; apply truthy_base_value
      | rewrite Es; apply truthy_size_value]. }
  split; [exact Hun|]. split; [exact Hset|].
  destruct (truthy (_base st)) as [bv|] eqn:Hb;
    [destruct (truthy (_size st)) as [sv|] eqn:Hs|].
  - destruct Hset as (order & _ & ->); [discriminate..|].
    simpl. intros [= H].
  - rewrite Hun by (by right). discriminate.
  - rewrite Hun by (by left). discriminate.
Qed.

(** ** The guards of [build] on attributes written directly *)

(** X11. With base and size set, attributes that break a limit make
    [build] raise and the builder's text report an invalid state: sugar above
    5 gives the sugar-limit error, and otherwise more than 4 syrups give the
    syrup-limit error; the attributes stay as they were. *)
Theorem build_limit_guards (st : state) :
  truthy (_base st) <> None ->
  truthy (_size st) <> None ->
  (PyNum.gtb (_sugar st) (PyInt 5) = true ->
   build float_repr st = (Raised (ValueError "Сахар не может превышать 5 ложек"), st)
   /\ __str__ float_repr st = (Returned "CoffeeOrderBuilder (невалидное состояние)", st))
  /\ (PyNum.gtb (_sugar st) (PyInt 5) = false -> 4 < len (_syrups st) ->
      build float_repr st
      = (Raised (ValueError "Количество сиропов не может превышать 4"), st)
      /\ __str__ float_repr st
         = (Returned "CoffeeOrderBuilder (невалидное состояние)", st)).
Proof.
  intros [bv Hb]%truthy_set [sv Hs]%truthy_set.
  split.
  - intros Hsugar.
    assert (build float_repr st
            = (Raised (ValueError "Сахар не может превышать 5 ложек"), st)) as Hbuild.
    { unfold build, bind, gets, MAX_SUGAR.
      repeat progress (cbv beta iota; rewrite ?Hb, ?Hs, ?Hsugar). reflexivity. }
    split; [exact Hbuild|].
    rewrite (str_of_build st bv sv Hb Hs), Hbuild. reflexivity.
  - intros Hsugar Hlen.
    assert ((len (_syrups st) >? MAX_SYRUPS) = true) as Hcount
      by (apply Z.gtb_lt; exact Hlen).
    assert (build float_repr st
            = (Raised (ValueError "Количество сиропов не может превышать 4"), st))
      as Hbuild.
    { unfold build, bind, gets, MAX_SUGAR.
      repeat progress (cbv beta iota; rewrite ?Hb, ?Hs, ?Hsugar, ?Hcount). reflexivity. }
    split; [exact Hbuild|].
    rewrite (str_of_build st bv sv Hb Hs), Hbuild. reflexivity.
Qed.

(** X12. A milk text that is not a key of the price table (it can only
    have been written into the attribute directly) makes [build] raise
    KeyError with that text once the guards have passed, and the builder's
    text lets this error through: only ValueError is caught there. *)
Theorem build_unknown_milk (st : state) (b : CoffeeBase) (s : CoffeeSize) :
  _base st = Some (Enum.base_value b) ->
  _size st = Some (Enum.size_value s) ->
  PyNum.gtb (_sugar st) (PyInt MAX_SUGAR) = false ->
  len (_syrups st) <= MAX_SYRUPS ->
  MILK_PRICES !! _milk st = None ->
  build float_repr st = (Raised (KeyError (Some (_milk st))), st)
  /\ __str__ float_repr st = (Raised (KeyError (Some (_milk st))), st).
Proof.
  intros Hb Hs Hsugar Hlen Hmilk.
  assert ((len (_syrups st) >? MAX_SYRUPS) = false) as Hcount
    by (rewrite Z.gtb_ltb; apply Z.ltb_ge; exact Hlen).
  assert (_calculate_price st = (Raised (KeyError (Some (_milk st))), st)) as Hprice.
  { unfold _calculate_price, bind, gets.
    repeat progress
      (cbv beta iota;
       rewrite ?Hb, ?Hs, ?truthy_base_value, ?truthy_size_value,
         ?getitem_base, ?getitem_size).
    unfold getitem. rewrite Hmilk. reflexivity. }
  assert (build float_repr st = (Raised (KeyError (Some (_milk st))), st)) as Hbuild.
  { unfold build, bind, gets.
    repeat progress
      (cbv beta iota;
       rewrite ?Hb, ?Hs, ?truthy_base_value, ?truthy_size_value, ?Hsugar, ?Hcount,
         ?Hprice).
    reflexivity. }
  split; [exact Hbuild|].
  rewrite (str_of_build st (Enum.base_value b) (Enum.size_value s)), Hbuild;
    [reflexivity | rewrite Hb; apply truthy_base_value
    | rewrite Hs; apply truthy_size_value].
Qed.

(** ** Adding syrups in sequence *)

Lemma add_syrup_run (name : string) (st : state) :
  len (_syrups st) < MAX_SYRUPS ->
  add_syrup str_lower name st
  = (Returned Self,
     mk (_base st) (_size st) (_milk st) ({[str_lower name]} ∪ _syrups st)
        (_sugar st) (_iced st)).
Proof.
  intros H. unfold add_syrup, bind, gets. cbv beta iota.
  assert ((len (_syrups st) >=? MAX_SYRUPS) = false) as ->
    by (rewrite Z.geb_leb; apply Z.leb_gt; exact H).
  reflexivity.
Qed.

Lemma add_syrup_full (name : string) (st : state) :
  MAX_SYRUPS <= len (_syrups st) ->
  add_syrup str_lower name st = (Raised (ValueError msg_too_many_syrups), st).
Proof.
  intros H. unfold add_syrup, bind, gets. cbv beta iota.
  assert ((len (_syrups st) >=? MAX_SYRUPS) = true) as -> by (apply Z.geb_le; lia).
  reflexivity.
Qed.

Lemma len_add_le (x : string) (S : gset string) : len ({[x]} ∪ S) <= len S + 1.
Proof. unfold len. pose proof (size_add_le x S). lia. Qed.

(** X13. With room for two more syrups, two names may be added in either
    order: all four calls return the builder and the attributes end up the
    same. *)
Theorem add_syrup_commutes (a b : string) (st : state) :
  len (_syrups st) + 2 <= MAX_SYRUPS ->
  fst (add_syrup str_lower a st) = Returned Self
  /\ fst (add_syrup str_lower b (snd (add_syrup str_lower a st))) = Returned Self
  /\ fst (add_syrup str_lower b st) = Returned Self
  /\ fst (add_syrup str_lower a (snd (add_syrup str_lower b st))) = Returned Self
  /\ snd (add_syrup str_lower b (snd (add_syrup str_lower a st)))
     = snd (add_syrup str_lower a (snd (add_syrup str_lower b st))).
Proof.
  intros H.
  pose proof (len_add_le (str_lower a) (_syrups st)) as Ha.
  pose proof (len_add_le (str_lower b) (_syrups st)) as Hb.
  rewrite (add_syrup_run a st), (add_syrup_run b st) by lia.
  cbn [fst snd].
  rewrite !add_syrup_run by (cbn [_syrups]; lia).
  cbn [fst snd _base _size _milk _syrups _sugar _iced].
  repeat split. f_equal.
  rewrite !(assoc_L (∪)). f_equal. apply (comm_L (∪)).
Qed.

(** X14. A name that lowercases to one just added: if fewer than four
    syrups are present after the first call, the second call returns the
    builder and changes nothing; if the first call made the set reach four,
    the second call raises the limit error although the name is already
    there. *)
Theorem add_syrup_again (a b : string) (st : state) :
  str_lower a = str_lower b ->
  len (_syrups st) < MAX_SYRUPS ->
  (len (_syrups (snd (add_syrup str_lower a st))) < MAX_SYRUPS ->
   add_syrup str_lower b (snd (add_syrup str_lower a st))
   = (Returned Self, snd (add_syrup str_lower a st)))
  /\ (len (_syrups (snd (add_syrup str_lower a st))) = MAX_SYRUPS ->
      add_syrup str_lower b (snd (add_syrup str_lower a st))
      = (Raised (ValueError "Нельзя добавить больше 4 сиропов"),
         snd (add_syrup str_lower a st))).
Proof.
  intros Hab Hlen. rewrite (add_syrup_run a st Hlen). cbn [snd _syrups]. split.
  - intros H. rewrite add_syrup_run by exact H.
    cbn [_base _size _milk _syrups _sugar _iced]. rewrite <- Hab.
    do 2 f_equal. rewrite (assoc_L (∪)). f_equal. apply (idemp_L (∪)).
  - intros H. apply add_syrup_full. cbn [_syrups]. lia.
Qed.

(** ** Prices of built orders *)

Lemma price_facts (b : CoffeeBase) (s : CoffeeSize) (m : MilkType) (n : Z)
    (iced : bool) :
  0 <= n <= 4 ->
  Pure.price (Pure.base_price b) (Pure.multiplier s) (Pure.milk_price m) n iced
  = Pure.price_sum (Pure.base_price b) (Pure.multiplier s) (Pure.milk_price m) n iced
  /\ PyNum.leb (PyInt 200)
       (Pure.price (Pure.base_price b) (Pure.multiplier s) (Pure.milk_price m) n iced)
     = true
  /\ PyNum.leb
       (Pure.price (Pure.base_price b) (Pure.multiplier s) (Pure.milk_price m) n iced)
       (PyFloat Sample.f668_2)
     = true.
Proof.
  intros Hn.
  assert (n = 0 \/ n = 1 \/ n = 2 \/ n = 3 \/ n = 4) as [->|[->|[->|[->| ->]]]] by lia;
    destruct b, s, m, iced; vm_compute; repeat split.
Qed.

(** X15. On every builder a caller can hold with base and size set, the
    final [round(price, 2)] changes nothing: the price of the built order is
    the plain float sum of the table entries, and rounding it again gives it
    back. The price lies between 200 (small espresso) and 668.2 (large
    cappuccino with oat milk, four syrups and ice). *)
Theorem built_price_range (st : state) :
  reachable str_lower float_repr st ->
  truthy (_base st) <> None ->
  truthy (_size st) <> None ->
  exists (b : CoffeeBase) (s : CoffeeSize) (m : MilkType) (order : CoffeeOrder.t),
    _base st = Some (Enum.base_value b)
    /\ _size st = Some (Enum.size_value s)
    /\ _milk st = Enum.milk_value m
    /\ build float_repr st = (Returned order, st)
    /\ CoffeeOrder.price order
       = Pure.price_sum (Pure.base_price b) (Pure.multiplier s) (Pure.milk_price m)
           (len (_syrups st)) (_iced st)
    /\ PyNum.round2 (CoffeeOrder.price order) = CoffeeOrder.price order
    /\ PyNum.leb (PyInt 200) (CoffeeOrder.price order) = true
    /\ PyNum.leb (CoffeeOrder.price order) (PyFloat Sample.f668_2) = true.
Proof.
  intros Hinv%reachable_invariant Hbase Hsize.
  destruct (build_on_invariant st Hinv Hbase Hsize)
    as (b & s & m & d & f & Hb & Hs & Hm & Hbuild & _ & Hf & _).
  destruct (invariant_set st Hinv Hbase Hsize) as (_ & _ & _ & _ & _ & _ & _ & _ & Hlen).
  destruct (price_facts b s m (len (_syrups st)) (_iced st) Hlen) as (Hsum & Hlo & Hhi).
  exists b, s, m. eexists.
  split; [exact Hb|]. split; [exact Hs|]. split; [exact Hm|].
  split; [exact Hbuild|].
  cbn [CoffeeOrder.price]. rewrite <- Hf.
  split; [exact Hsum|]. split; [|split; [exact Hlo | exact Hhi]].
  rewrite Hsum at 1. reflexivity.
Qed.

(** ** Setters followed by [build] *)

Lemma build_with (st : state) (b : CoffeeBase) (s : CoffeeSize) (m : MilkType) :
  _base st = Some (Enum.base_value b) ->
  _size st = Some (Enum.size_value s) ->
  _milk st = Enum.milk_value m ->
  invariant st = true ->
  exists (d : string) (f : spec_float),
    build float_repr st
    = (Returned (CoffeeOrder.mk (Enum.base_value b) (Enum.size_value s) (_milk st)
                   (sorted (elements (_syrups st))) (_sugar st) (_iced st)
                   (PyFloat f) d), st)
    /\ Pure.price (Pure.base_price b) (Pure.multiplier s) (Pure.milk_price m)
         (len (_syrups st)) (_iced st) = PyFloat f
    /\ Float64.nearest (Spec.price b s m (len (_syrups st)) (_iced st)) f = true.
Proof.
  intros Hb Hs Hm Hinv.
  assert (truthy (_base st) = Some (Enum.base_value b)) as Htb
    by (rewrite Hb; apply truthy_base_value).
  assert (truthy (_size st) = Some (Enum.size_value s)) as Hts
    by (rewrite Hs; apply truthy_size_value).
  destruct (invariant_set st Hinv) as (_ & _ & _ & _ & _ & _ & Hsugar & Hcount & Hlen);
    [congruence.. |].
  destruct (price_nearest b s m (len (_syrups st)) (_iced st) Hlen) as (f & Hf & Hnear).
  destruct (generate_description_returns float_repr st) as [d Hd].
  exists d, f. repeat split; try assumption.
  eapply (build_run float_repr st _ _ d);
    [ exact Htb | exact Hts | exact Hsugar | exact Hcount
    | rewrite <- Hf; apply (calculate_price_run st b s m Hb Hs Hm) | exact Hd ].
Qed.

(** X16. Clearing the extras and building: on every builder a caller can
    hold with base and size set, [clear_extras] followed by [build] returns
    the plain order: milk "none", no syrups, sugar 0, no ice, the
    description "{size} {base}" and the price basePrice × sizeMultiplier (the
    double nearest to it). *)
Theorem clear_extras_then_build (st : state) :
  reachable str_lower float_repr st ->
  truthy (_base st) <> None ->
  truthy (_size st) <> None ->
  exists (b : CoffeeBase) (s : CoffeeSize) (f : spec_float),
    _base st = Some (Enum.base_value b)
    /\ _size st = Some (Enum.size_value s)
    /\ build float_repr (snd (clear_extras st))
       = (Returned (CoffeeOrder.mk (Enum.base_value b) (Enum.size_value s) "none" []
                      (PyInt 0) false (PyFloat f)
                      (Enum.size_value s +:+ " " +:+ Enum.base_value b)),
          snd (clear_extras st))
    /\ Float64.nearest (Spec.basePrice b * Spec.sizeMultiplier s) f = true.
Proof.
  intros Hinv%reachable_invariant Hbase Hsize.
  destruct (invariant_set st Hinv Hbase Hsize) as (b & s & _ & Hb & Hs & _).
  exists b, s.
  change (snd (clear_extras st))
    with (mk (_base st) (_size st) "none" ∅ (PyInt 0) false).
  rewrite Hb, Hs.
  destruct b, s;
    match goal with
    | |- exists f, _ /\ _ /\ build _ ?st' = _ /\ _ =>
        match eval vm_compute in (fst (_calculate_price st')) with
        | Returned (PyFloat ?f) => exists f
        end
    end;
    (split; [reflexivity|]; split; [reflexivity|]; split; vm_compute; reflexivity).
Qed.

Lemma milk_value_contained (m : MilkType) :
  Enum.contains Enum.milk_values (Enum.milk_value m) = true.
Proof. destruct m; reflexivity. Qed.

(** X17. Choosing a milk and building: on every builder a caller can hold
    with base and size set, [set_milk] with a member of the milk enumeration
    followed by [build] returns an order with that milk whose price is the
    double nearest to the exact price for that milk; the other attributes of
    the order are those the builder had. *)
Theorem set_milk_then_build (st : state) (m : MilkType) :
  reachable str_lower float_repr st ->
  truthy (_base st) <> None ->
  truthy (_size st) <> None ->
  exists (b : CoffeeBase) (s : CoffeeSize) (order : CoffeeOrder.t) (f : spec_float),
    _base st = Some (Enum.base_value b)
    /\ _size st = Some (Enum.size_value s)
    /\ build float_repr (snd (set_milk (Enum.milk_value m) st))
       = (Returned order, snd (set_milk (Enum.milk_value m) st))
    /\ CoffeeOrder.milk order = Enum.milk_value m
    /\ CoffeeOrder.sugar order = _sugar st
    /\ CoffeeOrder.iced order = _iced st
    /\ CoffeeOrder.syrups order = sorted (elements (_syrups st))
    /\ CoffeeOrder.price order = PyFloat f
    /\ Float64.nearest (Spec.price b s m (len (_syrups st)) (_iced st)) f = true.
Proof.
  intros Hinv%reachable_invariant Hbase Hsize.
  destruct (invariant_set st Hinv Hbase Hsize) as (b & s & _ & Hb & Hs & _).
  set (st' := mk (_base st) (_size st) (Enum.milk_value m) (_syrups st) (_sugar st)
                (_iced st)).
  assert (snd (set_milk (Enum.milk_value m) st) = st') as Est
    by (unfold set_milk; rewrite milk_value_contained; reflexivity).
  rewrite Est.
  assert (invariant st' = true) as Hinv'
    by (rewrite <- Est;
        apply (invariant_after str_lower float_repr (SetMilk (Enum.milk_value m)) st Hinv)).
  destruct (build_with st' b s m Hb Hs eq_refl Hinv') as (d & f & Hbuild & _ & Hnear).
  exists b, s. eexists. exists f.
  split; [exact Hb|]. split; [exact Hs|]. split; [exact Hbuild|].
  repeat split. exact Hnear.
Qed.

(** X18. [set_iced] called without an argument means iced: on every
    builder a caller can hold with base and size set, it never fails, and
    [build] afterwards returns an iced order whose price is the double
    nearest to the exact price with the 0.2 surcharge, which is the exact
    price without ice plus 0.2. *)
Theorem set_iced_default_then_build (st : state) :
  reachable str_lower float_repr st ->
  truthy (_base st) <> None ->
  truthy (_size st) <> None ->
  exists (b : CoffeeBase) (s : CoffeeSize) (m : MilkType)
         (order : CoffeeOrder.t) (f : spec_float),
    _base st = Some (Enum.base_value b)
    /\ _size st = Some (Enum.size_value s)
    /\ _milk st = Enum.milk_value m
    /\ fst (set_iced None st) = Returned Self
    /\ build float_repr (snd (set_iced None st))
       = (Returned order, snd (set_iced None st))
    /\ CoffeeOrder.iced order = true
    /\ CoffeeOrder.price order = PyFloat f
    /\ Float64.nearest (Spec.price b s m (len (_syrups st)) true) f = true
    /\ Qeq (Spec.price b s m (len (_syrups st)) true)
           (Spec.price b s m (len (_syrups st)) false + (2 # 10)).
Proof.
  intros Hinv%reachable_invariant Hbase Hsize.
  destruct (invariant_set st Hinv Hbase Hsize)
    as (b & s & m & Hb & Hs & Hm & _ & _ & Hlen).
  set (st' := mk (_base st) (_size st) (_milk st) (_syrups st) (_sugar st) true).
  change (set_iced None st) with (Returned Self, st'). cbn [fst snd].
  assert (invariant st' = true) as Hinv'
    by apply (invariant_after str_lower float_repr (SetIced None) st Hinv).
  destruct (build_with st' b s m Hb Hs Hm Hinv') as (d & f & Hbuild & _ & Hnear).
  exists b, s, m. eexists. exists f.
  split; [exact Hb|]. split; [exact Hs|]. split; [exact Hm|].
  split; [reflexivity|]. split; [exact Hbuild|].
  split; [reflexivity|]. split; [reflexivity|]. split; [exact Hnear|].
  cbn [_syrups].
  assert (len (_syrups st) = 0 \/ len (_syrups st) = 1 \/ len (_syrups st) = 2
          \/ len (_syrups st) = 3 \/ len (_syrups st) = 4)
    as [->|[->|[->|[->| ->]]]] by lia;
    destruct b, s, m; reflexivity.
Qed.

(** X19. Sugar is free: on every builder a caller can hold with base and
    size set, a call of [set_sugar], whether it stores the value or raises,
    leaves the price of the order [build] returns as it was; when the call
    returns, the order carries the new sugar. *)
Theorem sugar_is_free (st : state) (teaspoons : pynum) :
  reachable str_lower float_repr st ->
  truthy (_base st) <> None ->
  truthy (_size st) <> None ->
  exists before afterwards : CoffeeOrder.t,
    build float_repr st = (Returned before, st)
    /\ build float_repr (snd (set_sugar teaspoons st))
       = (Returned afterwards, snd (set_sugar teaspoons st))
    /\ CoffeeOrder.price afterwards = CoffeeOrder.price before
    /\ (fst (set_sugar teaspoons st) = Returned Self ->
        CoffeeOrder.sugar afterwards = teaspoons).
Proof.
  intros Hinv%reachable_invariant Hbase Hsize.
  destruct (invariant_set st Hinv Hbase Hsize) as (b & s & m & Hb & Hs & Hm & _).
  pose proof (invariant_after str_lower float_repr (SetSugar teaspoons) st Hinv) as Hinv'.
  cbn [after] in Hinv'.
  destruct (build_with st b s m Hb Hs Hm Hinv) as (d & f & Hbuild & Hf & _).
  assert (exists st',
            set_sugar teaspoons st = (fst (set_sugar teaspoons st), st')
            /\ _base st' = _base st /\ _size st' = _size st /\ _milk st' = _milk st
            /\ _syrups st' = _syrups st /\ _iced st' = _iced st
            /\ (fst (set_sugar teaspoons st) = Returned Self -> _sugar st' = teaspoons))
    as (st' & Erun & Eb & Es & Em & Esy & Ei & Esugar).
  { unfold set_sugar.
    destruct (PyNum.leb (PyInt 0) teaspoons && PyNum.leb teaspoons (PyInt MAX_SUGAR));
      eexists; (split; [reflexivity|]); simpl; repeat split; discriminate. }
  rewrite Erun in Hinv' |- *. cbn [snd fst] in Hinv' |- *.
  rewrite <- Eb in Hb. rewrite <- Es in Hs. rewrite <- Em in Hm.
  destruct (build_with st' b s m Hb Hs Hm Hinv') as (d' & f' & Hbuild' & Hf' & _).
  rewrite Esy, Ei, Hf in Hf'. injection Hf' as <-.
  eexists. eexists.
  split; [exact Hbuild|]. split; [exact Hbuild'|].
  split; [reflexivity|]. exact Esugar.
Qed.

(** ** What only [reset] undoes *)

(** X20. Once set, base and size stay set: no call other than [reset]
    turns a builder with a base (or a size) into one without, whether the
    call returns or raises. *)
Theorem only_reset_unsets (c : call) (st : state) :
  c <> Reset ->
  (truthy (_base st) <> None -> truthy (_base (after str_lower float_repr c st)) <> None)
  /\ (truthy (_size st) <> None -> truthy (_size (after str_lower float_repr c st)) <> None).
Proof.
  intros Hc.
  destruct c as [base|size|milk|name|teaspoons|iced| | |]; cbn [after].
  - unfold set_base, bind, assign_base, ret, raise.
    destruct (Enum.contains Enum.base_values base) eqn:E;
      cbn [negb snd _base _size]; auto.
    apply contains_base_values in E as [b ->]. split; [|auto].
    intros _. rewrite truthy_base_value. discriminate.
  - unfold set_size, bind, assign_size, ret, raise.
    destruct (Enum.contains Enum.size_values size) eqn:E;
      cbn [negb snd _base _size]; auto.
    apply contains_size_values in E as [s ->]. split; [auto|].
    intros _. rewrite truthy_size_value. discriminate.
  - unfold set_milk. destruct (Enum.contains Enum.milk_values milk); simpl; auto.
  - unfold add_syrup, bind, gets. cbv beta iota.
    destruct (len (_syrups st) >=? MAX_SYRUPS); simpl; auto.
  - unfold set_sugar.
    destruct (PyNum.leb (PyInt 0) teaspoons && PyNum.leb teaspoons (PyInt MAX_SUGAR));
      simpl; auto.
  - simpl. auto.
  - simpl. auto.
  - contradiction.
  - rewrite (read_only_build float_repr st). auto.
Qed.

End MoreProperties.

(** ** The further properties on concrete builders *)

Lemma set_base_closed_set_witness :
  CoffeeOrderBuilder._base (snd (CoffeeOrderBuilder.set_base "latte" Sample.builder0))
  = Some "latte"
  /\ CoffeeOrderBuilder.set_base "mocha" Sample.latte_only
     = (Raised (ValueError
                  "Недопустимая основа: mocha. Допустимо: ['espresso', 'americano', 'latte', 'cappuccino']"),
        Sample.latte_only).
Proof.
  split.
  - rewrite (proj1 (set_base_closed_set "latte" Sample.builder0)); [reflexivity|].
    simpl. auto.
  - apply (proj2 (set_base_closed_set "mocha" Sample.latte_only)).
    simpl. intros [H|[H|[H|[H|[]]]]]; discriminate H.
Defined.

Lemma set_size_closed_set_witness :
  CoffeeOrderBuilder._size (snd (CoffeeOrderBuilder.set_size "large" Sample.latte_only))
  = Some "large"
  /\ CoffeeOrderBuilder.set_size "LARGE" Sample.latte_only
     = (Raised (ValueError
                  "Недопустимый размер: LARGE. Допустимо: ['small', 'medium', 'large']"),
        Sample.latte_only).
Proof.
  split.
  - rewrite (proj1 (set_size_closed_set "large" Sample.latte_only)); [reflexivity|].
    simpl. auto.
  - apply (proj2 (set_size_closed_set "LARGE" Sample.latte_only)).
    simpl. intros [H|[H|[H|[]]]]; discriminate H.
Defined.

Lemma set_milk_closed_set_witness :
  CoffeeOrderBuilder._milk (snd (CoffeeOrderBuilder.set_milk "soy" Sample.latte_only))
  = "soy"
  /\ CoffeeOrderBuilder.set_milk "almond" Sample.latte_only
     = (Raised (ValueError
                  "Недопустимый тип молока: almond. Допустимо: ['none', 'whole', 'skim', 'oat', 'soy']"),
        Sample.latte_only).
Proof.
  split.
  - rewrite (proj1 (set_milk_closed_set "soy" Sample.latte_only)); [reflexivity|].
    simpl. auto 6.
  - apply (proj2 (set_milk_closed_set "almond" Sample.latte_only)).
    simpl. intros [H|[H|[H|[H|[H|[]]]]]]; discriminate H.
Defined.

Lemma built_order_fields_witness :
  exists order,
    CoffeeOrderBuilder.build Sample.float_repr_whole Sample.iced_cappuccino
    = (Returned order, Sample.iced_cappuccino)
    /\ Some (CoffeeOrder.base order) = Some "cappuccino"
    /\ NoDup (CoffeeOrder.syrups order)
    /\ (length (CoffeeOrder.syrups order) <= 4)%nat.
Proof.
  destruct (built_order_fields Sample.ascii_lower Sample.float_repr_whole
              Sample.iced_cappuccino)
    as (order & Hbuild & Hbase & _ & _ & _ & _ & _ & Hnodup & _ & Hlen).
  - apply reachable_chain, reachable_builder0.
  - vm_compute. discriminate.
  - vm_compute. discriminate.
  - exists order. repeat split; assumption.
Defined.


Lemma previews_of_unfinished_builder_witness :
  CoffeeOrderBuilder._calculate_price Sample.latte_only
  = (Returned (PyFloat Float64.lit_0_0), Sample.latte_only)
  /\ CoffeeOrderBuilder._generate_description Sample.float_repr_whole Sample.latte_only
     = (Returned "", Sample.latte_only).
Proof.
  apply (proj1 (previews_of_unfinished_builder Sample.float_repr_whole Sample.latte_only)).
  right. reflexivity.
Defined.

Lemma built_order_text_witness :
  CoffeeOrder.__str__ Sample.float_repr_whole
    (CoffeeOrder.mk "cappuccino" "large" "none" ["ваниль"; "карамель"] (PyInt 0) true
       (PyFloat Sample.f528_2) "large cappuccino + сиропы: ваниль, карамель (со льдом)")
  = "large cappuccino + сиропы: ваниль, карамель (со льдом)".
Proof.
  apply (built_order_text Sample.float_repr_whole Sample.iced_cappuccino).
  vm_compute. reflexivity.
Defined.

Lemma build_returns_iff_witness :
  (exists order,
     CoffeeOrderBuilder.build Sample.float_repr_whole Sample.sweet_latte
     = (Returned order, Sample.sweet_latte))
  /\ ~ (exists order,
          CoffeeOrderBuilder.build Sample.float_repr_whole Sample.latte_only
          = (Returned order, Sample.latte_only)).
Proof.
  split.
  - apply (build_returns_iff Sample.ascii_lower Sample.float_repr_whole Sample.sweet_latte).
    + apply reachable_chain, reachable_builder0.
    + split; vm_compute; discriminate.
  - intros H.
    apply (build_returns_iff Sample.ascii_lower Sample.float_repr_whole Sample.latte_only)
      in H as [_ H].
    + apply H. reflexivity.
    + apply reachable_chain, reachable_builder0.
Defined.

Lemma builder_text_witness :
  CoffeeOrderBuilder.__str__ Sample.float_repr_whole Sample.latte_only
  = (Returned "CoffeeOrderBuilder (не заполнен)", Sample.latte_only).
Proof.
  apply (builder_text Sample.ascii_lower Sample.float_repr_whole Sample.latte_only).
  - apply reachable_chain, reachable_builder0.
  - right. reflexivity.
Defined.

Lemma build_limit_guards_witness :
  CoffeeOrderBuilder.build Sample.float_repr_whole Sample.six_spoons
  = (Raised (ValueError "Сахар не может превышать 5 ложек"), Sample.six_spoons)
  /\ CoffeeOrderBuilder.__str__ Sample.float_repr_whole Sample.five_syrups
     = (Returned "CoffeeOrderBuilder (невалидное состояние)", Sample.five_syrups).
Proof.
  split.
  - apply (proj1 (build_limit_guards Sample.float_repr_whole Sample.six_spoons
                    ltac:(vm_compute; discriminate) ltac:(vm_compute; discriminate))).
    reflexivity.
  - apply (proj2 (build_limit_guards Sample.float_repr_whole Sample.five_syrups
                    ltac:(vm_compute; discriminate) ltac:(vm_compute; discriminate))).
    + reflexivity.
    + reflexivity.
Defined.

Lemma build_unknown_milk_witness :
  CoffeeOrderBuilder.build Sample.float_repr_whole Sample.almond_milk
  = (Raised (KeyError (Some "almond")), Sample.almond_milk)
  /\ CoffeeOrderBuilder.__str__ Sample.float_repr_whole Sample.almond_milk
     = (Raised (KeyError (Some "almond")), Sample.almond_milk).
Proof.
  apply (build_unknown_milk Sample.float_repr_whole Sample.almond_milk LATTE MEDIUM).
  - reflexivity.
  - reflexivity.
  - reflexivity.
  - vm_compute. discriminate.
  - reflexivity.
Defined.

Lemma add_syrup_commutes_witness :
  snd (CoffeeOrderBuilder.add_syrup Sample.ascii_lower "Mint"
         (snd (CoffeeOrderBuilder.add_syrup Sample.ascii_lower "Nut" Sample.iced_cappuccino)))
  = snd (CoffeeOrderBuilder.add_syrup Sample.ascii_lower "Nut"
           (snd (CoffeeOrderBuilder.add_syrup Sample.ascii_lower "Mint"
                   Sample.iced_cappuccino))).
Proof.
  apply (add_syrup_commutes Sample.ascii_lower "Nut" "Mint" Sample.iced_cappuccino).
  vm_compute. discriminate.
Defined.

Lemma add_syrup_again_witness :
  CoffeeOrderBuilder.add_syrup Sample.ascii_lower "MINT"
    (snd (CoffeeOrderBuilder.add_syrup Sample.ascii_lower "Mint" Sample.iced_cappuccino))
  = (Returned Self,
     snd (CoffeeOrderBuilder.add_syrup Sample.ascii_lower "Mint" Sample.iced_cappuccino)).
Proof.
  apply (proj1 (add_syrup_again Sample.ascii_lower "Mint" "MINT" Sample.iced_cappuccino
                  eq_refl eq_refl)).
  reflexivity.
Defined.

Lemma built_price_range_witness :
  exists order,
    CoffeeOrderBuilder.build Sample.float_repr_whole Sample.sweet_latte
    = (Returned order, Sample.sweet_latte)
    /\ PyNum.round2 (CoffeeOrder.price order) = CoffeeOrder.price order
    /\ PyNum.leb (PyInt 200) (CoffeeOrder.price order) = true
    /\ PyNum.leb (CoffeeOrder.price order) (PyFloat Sample.f668_2) = true.
Proof.
  destruct (built_price_range Sample.ascii_lower Sample.float_repr_whole Sample.sweet_latte)
    as (b & s & m & order & _ & _ & _ & Hbuild & _ & Hround & Hlo & Hhi).
  - apply reachable_chain, reachable_builder0.
  - vm_compute. discriminate.
  - vm_compute. discriminate.
  - exists order. repeat split; assumption.
Defined.

Lemma clear_extras_then_build_witness :
  exists f,
    CoffeeOrderBuilder.build Sample.float_repr_whole
      (snd (CoffeeOrderBuilder.clear_extras Sample.sweet_latte))
    = (Returned (CoffeeOrder.mk "latte" "medium" "none" [] (PyInt 0) false (PyFloat f)
                   "medium latte"),
       snd (CoffeeOrderBuilder.clear_extras Sample.sweet_latte))
    /\ Float64.nearest (300 * (12 # 10)) f = true.
Proof.
  destruct (clear_extras_then_build Sample.ascii_lower Sample.float_repr_whole
              Sample.sweet_latte)
    as (b & s & f & Hb & Hs & Hbuild & Hnear).
  - apply reachable_chain, reachable_builder0.
  - vm_compute. discriminate.
  - vm_compute. discriminate.
  - vm_compute in Hb, Hs.
    destruct b; try discriminate Hb. destruct s; try discriminate Hs.
    exists f. split; [exact Hbuild | exact Hnear].
Defined.

Lemma set_milk_then_build_witness :
  exists order,
    CoffeeOrderBuilder.build Sample.float_repr_whole
      (snd (CoffeeOrderBuilder.set_milk "soy" Sample.iced_cappuccino))
    = (Returned order, snd (CoffeeOrderBuilder.set_milk "soy" Sample.iced_cappuccino))
    /\ CoffeeOrder.milk order = "soy".
Proof.
  destruct (set_milk_then_build Sample.ascii_lower Sample.float_repr_whole
              Sample.iced_cappuccino SOY)
    as (b & s & order & f & _ & _ & Hbuild & Hmilk & _).
  - apply reachable_chain, reachable_builder0.
  - vm_compute. discriminate.
  - vm_compute. discriminate.
  - exists order. split; [exact Hbuild | exact Hmilk].
Defined.

Lemma set_iced_default_then_build_witness :
  exists order,
    CoffeeOrderBuilder.build Sample.float_repr_whole
      (snd (CoffeeOrderBuilder.set_iced None Sample.sweet_latte))
    = (Returned order, snd (CoffeeOrderBuilder.set_iced None Sample.sweet_latte))
    /\ CoffeeOrder.iced order = true.
Proof.
  destruct (set_iced_default_then_build Sample.ascii_lower Sample.float_repr_whole
              Sample.sweet_latte)
    as (b & s & m & order & f & _ & _ & _ & _ & Hbuild & Hiced & _).
  - apply reachable_chain, reachable_builder0.
  - vm_compute. discriminate.
  - vm_compute. discriminate.
  - exists order. split; [exact Hbuild | exact Hiced].
Defined.

Lemma sugar_is_free_witness :
  exists before afterwards : CoffeeOrder.t,
    CoffeeOrderBuilder.build Sample.float_repr_whole Sample.iced_cappuccino
    = (Returned before, Sample.iced_cappuccino)
    /\ CoffeeOrderBuilder.build Sample.float_repr_whole
         (snd (CoffeeOrderBuilder.set_sugar (PyInt 5) Sample.iced_cappuccino))
       = (Returned afterwards,
          snd (CoffeeOrderBuilder.set_sugar (PyInt 5) Sample.iced_cappuccino))
    /\ CoffeeOrder.price afterwards = CoffeeOrder.price before.
Proof.
  destruct (sugar_is_free Sample.ascii_lower Sample.float_repr_whole
              Sample.iced_cappuccino (PyInt 5))
    as (before & afterwards & H1 & H2 & H3 & _).
  - apply reachable_chain, reachable_builder0.
  - vm_compute. discriminate.
  - vm_compute. discriminate.
  - exists before, afterwards. repeat split; assumption.
Defined.

Lemma only_reset_unsets_witness :
  truthy (CoffeeOrderBuilder._base
            (CoffeeOrderBuilder.after Sample.ascii_lower Sample.float_repr_whole
               (CoffeeOrderBuilder.SetBase "tea") Sample.latte_only))
  <> None.
Proof.
  apply (proj1 (only_reset_unsets Sample.ascii_lower Sample.float_repr_whole
                  (CoffeeOrderBuilder.SetBase "tea") Sample.latte_only
                  ltac:(discriminate))).
  vm_compute. discriminate.
Defined.
